(** * The reflection workflow (writer, reviewer, publisher)

    A shallow embedding of [state.py], [config.py], [nodes.py] and
    [graph_simple.py].  The workflow state is a Python [TypedDict]: a record
    whose keys may each be absent.  The nodes talk to a chat model and the
    graph library threads the state from node to node, so the nodes live in
    a small state-and-exception monad over a [World] that records, in order,
    every node call, every model call and every state the graph stored.

    Left out: the model name and temperature (they do not reach the control
    flow), the lines the Publisher prints, and the persistence of a thread
    between runs (every run writes a full initial state). *)

From Stdlib Require Import ZArith List String Ascii DecimalString Bool Lia.
Import ListNotations.

Open Scope string_scope.
Open Scope Z_scope.

(** ** state.py *)

Inductive Decision := APPROVE | REVISE.

Definition Decision_value (d : Decision) : string :=
  match d with
  | APPROVE => "APPROVE"
  | REVISE => "REVISE"
  end.

Inductive NodeName := WRITER | REVIEWER | PUBLISHER.

Definition NodeName_value (n : NodeName) : string :=
  match n with
  | WRITER => "writer_node"
  | REVIEWER => "reviewer_node"
  | PUBLISHER => "publisher_node"
  end.

(** Chat messages as the nodes build them: [HumanMessage(content=, name=)]
    and [AIMessage(content=, name=)].  [msg_id] is the identifier the
    messages reducer of the graph library hands out; a message a node has
    just built has none. *)
Inductive MessageType := Human | AI.

Record Message := mkMessage {
  msg_type : MessageType;
  msg_content : string;
  msg_name : option string;
  msg_id : option nat
}.

Definition HumanMessage (content : string) (name : option string) : Message :=
  mkMessage Human content name None.

Definition AIMessage (content : string) (name : option string) : Message :=
  mkMessage AI content name None.

(** What is sent to the model: role dictionaries and message objects. *)
Inductive ChatItem :=
| RoleDict (role content : string)
| Msg (m : Message).

(** [MessageResponseState(MessagesState)]; [None] is an absent key. *)
Record MessageResponseState := mkState {
  messages : option (list Message);
  revision_count : option Z;
  original_customer_message : option string;
  latest_feedback_for_writer : option string;
  latest_message_response_by_writer : option string;
  latest_reviewer_decision : option string;
  continue_revision : option bool
}.

(** [state.get(key, default)] *)
Definition get {A : Type} (field : option A) (default : A) : A :=
  match field with
  | Some v => v
  | None => default
  end.

(** Every key of the state is present, so no [.get] default is in play. *)
Definition all_keys_present (s : MessageResponseState) : Prop :=
  messages s <> None /\ revision_count s <> None /\
  original_customer_message s <> None /\
  latest_feedback_for_writer s <> None /\
  latest_message_response_by_writer s <> None /\
  latest_reviewer_decision s <> None /\ continue_revision s <> None.

(** ** Effects *)

Inductive Exc :=
| KeyError (key : string)
| ModelError (reason : string).

Inductive Res (A : Type) :=
| Ok (a : A)
| Raise (e : Exc).
Arguments Ok {A} a.
Arguments Raise {A} e.

Inductive Event :=
| NodeCalled (node : string)
| Invoke (request : list ChatItem)
| StructuredInvoke (prompt : string)
| Checkpoint (s : MessageResponseState).

Record World := mkWorld {
  events : list Event;
  next_id : nat
}.

Definition init_world : World := mkWorld [] 0%nat.

(** What the structured call answers.  The node reads it with
    [.get("decision", ...)], so it is a dictionary whose ["decision"] key
    may be missing; its value is whatever text the model produced. *)
Definition AIReviewerResponse : Type := option string.

(** The chat model.  Its answers may depend on everything that happened
    before the call, and either call may fail. *)
Record ChatOpenAI := mkChatOpenAI {
  invoke : list Event -> list ChatItem -> Res string;
  structured_invoke : list Event -> string -> Res AIReviewerResponse
}.

Definition M (A : Type) : Type := World -> Res A * World.

Definition ret {A : Type} (a : A) : M A := fun w => (Ok a, w).

Definition raise {A : Type} (e : Exc) : M A := fun w => (Raise e, w).

Definition bind {A B : Type} (m : M A) (k : A -> M B) : M B :=
  fun w =>
    match m w with
    | (Ok a, w') => k a w'
    | (Raise e, w') => (Raise e, w')
    end.

Notation "x <- m ;; k" := (bind m (fun x => k))
  (at level 61, m at next level, right associativity).

Definition log (e : Event) : M unit :=
  fun w => (Ok tt, mkWorld (events w ++ [e]) (next_id w)).

(** ** Python text formatting *)

Definition nl : string := String (ascii_of_nat 10) EmptyString.

Definition str_int (z : Z) : string := NilZero.string_of_int (Z.to_int z).

Definition str_bool (b : bool) : string := if b then "True" else "False".

(** Truth value of an [Optional[str]]: [None] and the empty string are false. *)
Definition truthy (o : option string) : bool :=
  match o with
  | None => false
  | Some s => negb (String.eqb s "")
  end.

(** ** Reading the trace *)

(** How many times node [n] was called. *)
Fixpoint count_node (n : string) (evs : list Event) : nat :=
  match evs with
  | [] => O
  | NodeCalled m :: evs' =>
      ((if String.eqb m n then 1 else 0) + count_node n evs')%nat
  | _ :: evs' => count_node n evs'
  end.

(** The requests sent to the model, of either kind. *)
Definition is_model_call (e : Event) : bool :=
  match e with
  | Invoke _ | StructuredInvoke _ => true
  | _ => false
  end.

Definition model_calls (evs : list Event) : list Event := filter is_model_call evs.

(** The tallies of a run: calls of each node, and requests to the model. *)
Definition writer_calls (evs : list Event) : nat :=
  count_node (NodeName_value WRITER) evs.

Definition reviewer_calls (evs : list Event) : nat :=
  count_node (NodeName_value REVIEWER) evs.

Definition publisher_calls (evs : list Event) : nat :=
  count_node (NodeName_value PUBLISHER) evs.

Definition requests (evs : list Event) : nat := List.length (model_calls evs).

(** The states the graph stored, oldest first. *)
Fixpoint checkpoints (evs : list Event) : list MessageResponseState :=
  match evs with
  | [] => []
  | Checkpoint s :: evs' => s :: checkpoints evs'
  | _ :: evs' => checkpoints evs'
  end.

(** The part of the trace that precedes the first call of node [n]. *)
Fixpoint before_call (n : string) (evs : list Event) : list Event :=
  match evs with
  | [] => []
  | NodeCalled m :: evs' =>
      if String.eqb m n then [] else NodeCalled m :: before_call n evs'
  | e :: evs' => e :: before_call n evs'
  end.

(** ** Test doubles

    [DummyLLM] is the stub of tests.py: every call answers the same text and
    the structured call always approves.  The others ask for a revision
    every time, answer with a word that is neither verdict, answer
    without a verdict, or write a critique and then fail on the verdict. *)

Definition DummyLLM : ChatOpenAI :=
  mkChatOpenAI (fun _ _ => Ok "dummy response content")
               (fun _ _ => Ok (Some (Decision_value APPROVE))).

Definition ReviseLLM : ChatOpenAI :=
  mkChatOpenAI (fun _ _ => Ok "please shorten it")
               (fun _ _ => Ok (Some (Decision_value REVISE))).

Definition MaybeLLM : ChatOpenAI :=
  mkChatOpenAI (fun _ _ => Ok "not sure") (fun _ _ => Ok (Some "MAYBE")).

Definition SilentLLM : ChatOpenAI :=
  mkChatOpenAI (fun _ _ => Ok "no verdict") (fun _ _ => Ok None).


(** The defaults of config.py, and stand-ins for the two prompt files. *)
Definition DEFAULT_MAX_REVISIONS : Z := 3.

Definition DEFAULT_MAX_REVISIONS_MESSAGE : string :=
  "MAX REVISIONS REACHED - APPROVING CURRENT VERSION".

Definition writer_prompt_text : string := "You write replies to customers.".

Definition reviewer_prompt_text : string := "You review replies to customers.".

(** The states tests.py feeds to the Writer and to the Reviewer, and a state
    in the middle of a revision round. *)
Definition test_writer_state : MessageResponseState :=
  {| messages := Some [];
     revision_count := Some 0;
     original_customer_message := Some "Hello!";
     latest_feedback_for_writer := Some "";
     latest_message_response_by_writer := Some "";
     latest_reviewer_decision := Some (Decision_value REVISE);
     continue_revision := None |}.

Definition test_reviewer_state (count : Z) : MessageResponseState :=
  {| messages := Some [];
     revision_count := Some count;
     original_customer_message := Some "Original";
     latest_feedback_for_writer := None;
     latest_message_response_by_writer := Some "Some reply";
     latest_reviewer_decision := None;
     continue_revision := None |}.

Definition revising_state (count : Z) (feedback : string) : MessageResponseState :=
  {| messages := Some [];
     revision_count := Some count;
     original_customer_message := Some "Original";
     latest_feedback_for_writer := Some feedback;
     latest_message_response_by_writer := Some "Some reply";
     latest_reviewer_decision := Some (Decision_value REVISE);
     continue_revision := Some true |}.


Section Workflow.

(** ** config.py, the two prompt files and the model *)

Variable MAX_REVISIONS : Z.
Variable MAX_REVISIONS_MESSAGE : string.
Variable writer_instructions : string.
Variable reviewer_instructions : string.
Variable llm : ChatOpenAI.

Definition llm_invoke (request : list ChatItem) : M string :=
  fun w =>
    (invoke llm (events w) request,
     mkWorld (events w ++ [Invoke request]) (next_id w)).

Definition llm_structured_invoke (prompt : string) : M AIReviewerResponse :=
  fun w =>
    (structured_invoke llm (events w) prompt,
     mkWorld (events w ++ [StructuredInvoke prompt]) (next_id w)).

(** [model_failed before call e]: [call] is a request to the model which,
    made after the events [before], was answered with the error [e]. *)
Definition model_failed (before : list Event) (call : Event) (e : Exc) : Prop :=
  match call with
  | Invoke request => invoke llm before request = Raise e
  | StructuredInvoke prompt => structured_invoke llm before prompt = Raise e
  | _ => False
  end.

(** [state["messages"]] *)
Definition state_messages (state : MessageResponseState) : M (list Message) :=
  match messages state with
  | Some l => ret l
  | None => raise (KeyError "messages")
  end.

(** ** nodes.py *)

Definition feedback_message (feedback : string) : string :=
  nl ++ nl ++ "Reviewer Feedback:" ++ nl ++ feedback ++ nl ++ nl
  ++ "Please revise your response based on this feedback.".

Definition original_message_text (original_message : string) : string :=
  nl ++ nl ++ "Original Customer Message: " ++ nl ++ original_message
  ++ nl ++ nl.

Definition _create_writer_messages
    (state : MessageResponseState) (feedback : option string)
  : M (list ChatItem) :=
  let writer_prompt := writer_instructions in
  log_messages <- state_messages state ;;
  let messages := RoleDict "system" writer_prompt :: map Msg log_messages in
  let original_message := get (original_customer_message state) "" in
  let messages :=
    (messages ++ [Msg (HumanMessage (original_message_text original_message) None)])%list in
  if truthy feedback then
    ret (messages ++ [Msg (HumanMessage (feedback_message (get feedback "")) None)])%list
  else
    ret messages.

Definition _update_writer_state
    (state : MessageResponseState) (response_content : string)
  : MessageResponseState :=
  let revision_count_ := get (revision_count state) 0 in
  {| messages := Some [AIMessage response_content (Some (NodeName_value WRITER))];
     revision_count := Some (revision_count_ + 1);
     original_customer_message := original_customer_message state;
     latest_feedback_for_writer := latest_feedback_for_writer state;
     latest_message_response_by_writer := Some response_content;
     latest_reviewer_decision := latest_reviewer_decision state;
     continue_revision := continue_revision state |}.

Definition opt_string_eqb (o : option string) (s : string) : bool :=
  match o with
  | Some x => String.eqb x s
  | None => false
  end.

Definition writer_node (state : MessageResponseState) : M MessageResponseState :=
  let revision_count_ := get (revision_count state) 0 in
  let latest_decision := latest_reviewer_decision state in
  let feedback :=
    if (0 <? revision_count_) && opt_string_eqb latest_decision (Decision_value REVISE)
    then Some (get (latest_feedback_for_writer state) "")
    else None in
  request <- _create_writer_messages state feedback ;;
  response <- llm_invoke request ;;
  ret (_update_writer_state state response).

Definition review_content (original_message latest_response : string) : string :=
  nl ++ nl ++ "Original Customer Message: " ++ nl ++ original_message ++ nl ++ nl
  ++ nl ++ nl ++ "Proposed Response: " ++ nl ++ latest_response ++ nl ++ nl.

Definition decision_prompt (feedback_text : string) : string :=
  "Based on the given feedback provided by the agent, identify if "
  ++ "the agent suggests revision or approves the content as is. "
  ++ "Here is the feedback: " ++ nl ++ feedback_text ++ nl ++ nl.

Definition reviewer_name : option string := Some (NodeName_value REVIEWER).

Definition reviewer_node (state : MessageResponseState) : M MessageResponseState :=
  let revision_count_ := get (revision_count state) 0 in
  if MAX_REVISIONS <=? revision_count_ then
    ret {| messages := Some
             [ HumanMessage MAX_REVISIONS_MESSAGE reviewer_name;
               HumanMessage (str_int revision_count_ ++ " reviewer decision: "
                             ++ Decision_value APPROVE) reviewer_name;
               HumanMessage (str_int revision_count_ ++ " continue revision?: "
                             ++ str_bool false) reviewer_name ];
           revision_count := revision_count state;
           original_customer_message := original_customer_message state;
           latest_feedback_for_writer := latest_feedback_for_writer state;
           latest_message_response_by_writer := latest_message_response_by_writer state;
           latest_reviewer_decision := Some (Decision_value APPROVE);
           continue_revision := Some false |}
  else
    let latest_response := get (latest_message_response_by_writer state) "" in
    let original_message := get (original_customer_message state) "" in
    let reviewer_prompt := reviewer_instructions in
    log_messages <- state_messages state ;;
    let request :=
      (RoleDict "system" reviewer_prompt :: map Msg log_messages
       ++ [Msg (HumanMessage (review_content original_message latest_response) None)])%list in
    feedback_text <- llm_invoke request ;;
    reviewer_response <- llm_structured_invoke (decision_prompt feedback_text) ;;
    let decision := get reviewer_response (Decision_value REVISE) in
    let continue_revision_ :=
      String.eqb decision (Decision_value REVISE) && (revision_count_ <? MAX_REVISIONS) in
    ret {| messages := Some
             [ HumanMessage (str_int revision_count_ ++ " - feedback for writer: "
                             ++ feedback_text) reviewer_name;
               HumanMessage (str_int revision_count_ ++ " - reviewer decision: "
                             ++ decision) reviewer_name;
               HumanMessage (str_int revision_count_ ++ " - continue revision?: "
                             ++ str_bool continue_revision_) reviewer_name ];
           revision_count := revision_count state;
           original_customer_message := original_customer_message state;
           latest_feedback_for_writer := Some feedback_text;
           latest_message_response_by_writer := latest_message_response_by_writer state;
           latest_reviewer_decision := Some decision;
           continue_revision := Some continue_revision_ |}.

(** [return {**state}]; the two console lines it prints are not modelled. *)
Definition publisher_node (state : MessageResponseState) : M MessageResponseState :=
  ret {| messages := messages state;
         revision_count := revision_count state;
         original_customer_message := original_customer_message state;
         latest_feedback_for_writer := latest_feedback_for_writer state;
         latest_message_response_by_writer := latest_message_response_by_writer state;
         latest_reviewer_decision := latest_reviewer_decision state;
         continue_revision := continue_revision state |}.

(** ** The graph library, as far as this workflow uses it

    A [StateGraph] is a table of named nodes, a table of fixed edges and a
    table of conditional edges (a routing function and a map from its
    answers to node names).  Running it starts at [START], calls one node at
    a time, folds the dictionary the node returns into the stored state and
    follows the edge out of the node, until [END]. *)

Definition START : string := "__start__".
Definition END : string := "__end__".

Record StateGraph := mkGraph {
  nodes : list (string * (MessageResponseState -> M MessageResponseState));
  edges : list (string * string);
  branches : list (string * ((MessageResponseState -> string) * list (string * string)))
}.

Fixpoint assoc {A : Type} (k : string) (l : list (string * A)) : option A :=
  match l with
  | [] => None
  | (k', v) :: l' => if String.eqb k k' then Some v else assoc k l'
  end.

(** The reducer of the [messages] key: messages without an identifier get a
    fresh one; a new message whose identifier is already in the log replaces
    that entry, any other is appended. *)
Definition with_id (m : Message) (i : nat) : Message :=
  mkMessage (msg_type m) (msg_content m) (msg_name m) (Some i).

Fixpoint assign_ids (l : list Message) (n : nat) : list Message * nat :=
  match l with
  | [] => ([], n)
  | m :: l' =>
      match msg_id m with
      | Some _ => let '(r, n') := assign_ids l' n in (m :: r, n')
      | None => let '(r, n') := assign_ids l' (S n) in (with_id m n :: r, n')
      end
  end.

Definition has_id (i : nat) (m : Message) : bool :=
  match msg_id m with
  | Some j => Nat.eqb i j
  | None => false
  end.

(** Position of the last entry carrying identifier [i]. *)
Fixpoint index_of_id (i : nat) (l : list Message) : option nat :=
  match l with
  | [] => None
  | m :: l' =>
      match index_of_id i l' with
      | Some k => Some (S k)
      | None => if has_id i m then Some 0%nat else None
      end
  end.

Fixpoint replace_at (k : nat) (m : Message) (l : list Message) : list Message :=
  match l, k with
  | [], _ => []
  | _ :: l', O => m :: l'
  | x :: l', S k' => x :: replace_at k' m l'
  end.

Definition merge_message (merged : list Message) (m : Message) : list Message :=
  match msg_id m with
  | Some i =>
      match index_of_id i merged with
      | Some k => replace_at k m merged
      | None => (merged ++ [m])%list
      end
  | None => (merged ++ [m])%list
  end.

Definition add_messages (left right : list Message) : M (list Message) :=
  fun w =>
    let '(left', n1) := assign_ids left (next_id w) in
    let '(right', n2) := assign_ids right n1 in
    (Ok (fold_left merge_message right' left'), mkWorld (events w) n2).

(** Every other key keeps the last value written to it. *)
Definition last_value {A : Type} (old new : option A) : option A :=
  match new with
  | Some _ => new
  | None => old
  end.

Definition apply_update (s update : MessageResponseState) : M MessageResponseState :=
  log_messages <-
    match messages update with
    | Some new => add_messages (get (messages s) []) new
    | None => ret (get (messages s) [])
    end ;;
  ret {| messages := Some log_messages;
         revision_count := last_value (revision_count s) (revision_count update);
         original_customer_message :=
           last_value (original_customer_message s) (original_customer_message update);
         latest_feedback_for_writer :=
           last_value (latest_feedback_for_writer s) (latest_feedback_for_writer update);
         latest_message_response_by_writer :=
           last_value (latest_message_response_by_writer s)
                      (latest_message_response_by_writer update);
         latest_reviewer_decision :=
           last_value (latest_reviewer_decision s) (latest_reviewer_decision update);
         continue_revision := last_value (continue_revision s) (continue_revision update) |}.

(** [merged s u s']: apart from the log, [s'] is [s] overwritten by [u]. *)
Definition merged (s u s' : MessageResponseState) : Prop :=
  revision_count s' = last_value (revision_count s) (revision_count u) /\
  original_customer_message s' =
    last_value (original_customer_message s) (original_customer_message u) /\
  latest_feedback_for_writer s' =
    last_value (latest_feedback_for_writer s) (latest_feedback_for_writer u) /\
  latest_message_response_by_writer s' =
    last_value (latest_message_response_by_writer s)
               (latest_message_response_by_writer u) /\
  latest_reviewer_decision s' =
    last_value (latest_reviewer_decision s) (latest_reviewer_decision u) /\
  continue_revision s' = last_value (continue_revision s) (continue_revision u).

Definition empty_channels : MessageResponseState :=
  mkState (Some []) None None None None None None.

Definition run_node (g : StateGraph) (v : string) (s : MessageResponseState)
  : M MessageResponseState :=
  match assoc v (nodes g) with
  | None => raise (KeyError v)
  | Some action =>
      _ <- log (NodeCalled v) ;;
      update <- action s ;;
      s' <- apply_update s update ;;
      _ <- log (Checkpoint s') ;;
      ret s'
  end.

Definition next_vertex (g : StateGraph) (v : string) (s : MessageResponseState)
  : option string :=
  match assoc v (edges g) with
  | Some v' => Some v'
  | None =>
      match assoc v (branches g) with
      | Some (path, path_map) => assoc (path s) path_map
      | None => None
      end
  end.

(** [fuel] is the step budget of the run; [None] is a run that used it up. *)
Fixpoint run_from (fuel : nat) (g : StateGraph) (v : string)
    (s : MessageResponseState) (w : World) : option (Res MessageResponseState) * World :=
  match fuel with
  | O => (None, w)
  | S fuel' =>
      if String.eqb v END then (Some (Ok s), w)
      else
        match (if String.eqb v START then ret s else run_node g v s) w with
        | (Raise e, w') => (Some (Raise e), w')
        | (Ok s', w') =>
            match next_vertex g v s' with
            | Some v' => run_from fuel' g v' s' w'
            | None => (Some (Ok s'), w')
            end
        end
  end.

Definition ainvoke (fuel : nat) (g : StateGraph) (input : MessageResponseState)
    (w : World) : option (Res MessageResponseState) * World :=
  match (s0 <- apply_update empty_channels input ;;
         _ <- log (Checkpoint s0) ;;
         ret s0) w with
  | (Raise e, w') => (Some (Raise e), w')
  | (Ok s0, w') => run_from fuel g START s0 w'
  end.

(** ** graph_simple.py *)

Definition should_continue (state : MessageResponseState) : string :=
  if get (continue_revision state) false
  then NodeName_value WRITER
  else NodeName_value PUBLISHER.

Definition create_reflection_graph : StateGraph :=
  {| nodes :=
       [ (NodeName_value WRITER, writer_node);
         (NodeName_value REVIEWER, reviewer_node);
         (NodeName_value PUBLISHER, publisher_node) ];
     edges :=
       [ (START, NodeName_value WRITER);
         (NodeName_value WRITER, NodeName_value REVIEWER);
         (NodeName_value PUBLISHER, END) ];
     branches :=
       [ (NodeName_value REVIEWER,
          (should_continue,
           [ (NodeName_value WRITER, NodeName_value WRITER);
             (NodeName_value PUBLISHER, NodeName_value PUBLISHER) ])) ] |}.

Definition initial_state (customer_message : string) : MessageResponseState :=
  {| messages := Some [HumanMessage customer_message None];
     revision_count := Some 0;
     original_customer_message := Some customer_message;
     latest_feedback_for_writer := Some "";
     latest_message_response_by_writer := Some "";
     latest_reviewer_decision := Some (Decision_value REVISE);
     continue_revision := Some true |}.

Definition process_customer_message (fuel : nat) (customer_message : string)
  : World -> option (Res MessageResponseState) * World :=
  let workflow := create_reflection_graph in
  ainvoke fuel workflow (initial_state customer_message).

(** * Properties *)

(** ** The trace only grows, and each reading of it distributes over growth *)

Lemma count_node_app (n : string) (a b : list Event) :
  count_node n (a ++ b) = (count_node n a + count_node n b)%nat.
Proof.
  induction a as [|e a IH]; simpl; [reflexivity|].
  destruct e; rewrite IH; lia.
Qed.

Lemma checkpoints_app (a b : list Event) :
  checkpoints (a ++ b) = (checkpoints a ++ checkpoints b)%list.
Proof.
  induction a as [|e a IH]; simpl; [reflexivity|].
  destruct e; rewrite IH; reflexivity.
Qed.

Lemma model_calls_only (n : string) (calls : list Event) :
  forallb is_model_call calls = true ->
  count_node n calls = O /\ checkpoints calls = [].
Proof.
  induction calls as [|e calls IH]; simpl; [auto|].
  intros H. apply andb_true_iff in H. destruct H as [He Hc].
  destruct e; simpl in He; try discriminate; auto.
Qed.

Lemma last_value_same {A : Type} (o : option A) : last_value o o = o.
Proof. destruct o; reflexivity. Qed.

(** Folding an update into the stored state never fails, writes no event,
    and treats every key but [messages] as last-value-wins. *)
Lemma apply_update_spec (s u : MessageResponseState) (w : World) :
  exists l n,
    apply_update s u w =
    (Ok {| messages := Some l;
           revision_count := last_value (revision_count s) (revision_count u);
           original_customer_message :=
             last_value (original_customer_message s) (original_customer_message u);
           latest_feedback_for_writer :=
             last_value (latest_feedback_for_writer s) (latest_feedback_for_writer u);
           latest_message_response_by_writer :=
             last_value (latest_message_response_by_writer s)
                        (latest_message_response_by_writer u);
           latest_reviewer_decision :=
             last_value (latest_reviewer_decision s) (latest_reviewer_decision u);
           continue_revision :=
             last_value (continue_revision s) (continue_revision u) |},
     mkWorld (events w) n).
Proof.
  unfold apply_update, bind. destruct (messages u) as [new|].
  - unfold add_messages.
    destruct (assign_ids (get (messages s) []) (next_id w)) as [left' n1].
    destruct (assign_ids new n1) as [right' n2]. simpl.
    do 2 eexists; reflexivity.
  - destruct w as [evs n]. simpl. do 2 eexists; reflexivity.
Qed.

(** ** An invariant rule for runs of any graph

    [I] is what holds before each step, indexed by the fuel left and the
    vertex about to run; [Q] is what is wanted of the outcome. *)

Section RunInvariant.

Variable g : StateGraph.
Variable I : nat -> string -> MessageResponseState -> list Event -> Prop.
Variable Q : option (Res MessageResponseState) -> list Event -> Prop.

Hypothesis out_of_fuel : forall v s evs, I O v s evs -> Q None evs.

Hypothesis at_end : forall f s evs, I (S f) END s evs -> Q (Some (Ok s)) evs.

Hypothesis at_start : forall f s evs,
  I (S f) START s evs ->
  match next_vertex g START s with
  | Some v' => I f v' s evs
  | None => Q (Some (Ok s)) evs
  end.

Hypothesis at_node : forall f v s w,
  v <> START -> v <> END -> I (S f) v s (events w) ->
  match run_node g v s w with
  | (Raise e, w') => Q (Some (Raise e)) (events w')
  | (Ok s', w') =>
      match next_vertex g v s' with
      | Some v' => I f v' s' (events w')
      | None => Q (Some (Ok s')) (events w')
      end
  end.

Lemma run_from_invariant : forall f v s w,
  I f v s (events w) ->
  Q (fst (run_from f g v s w)) (events (snd (run_from f g v s w))).
Proof.
  induction f as [|f IH]; intros v s w Hi; simpl.
  - eapply out_of_fuel; eassumption.
  - destruct (String.eqb v END) eqn:Eend.
    + apply String.eqb_eq in Eend. subst v. simpl. eapply at_end; eassumption.
    + apply String.eqb_neq in Eend.
      destruct (String.eqb v START) eqn:Estart.
      * apply String.eqb_eq in Estart. subst v. unfold ret.
        pose proof (at_start _ _ _ Hi) as Hs.
        destruct (next_vertex g START s) as [v'|]; simpl; auto.
      * apply String.eqb_neq in Estart.
        pose proof (at_node f v s w Estart Eend Hi) as Hn.
        destruct (run_node g v s w) as [[s'|e] w']; simpl; auto.
        destruct (next_vertex g v s') as [v'|]; simpl; auto.
Qed.

End RunInvariant.

(** ** One step of a run *)

Lemma apply_update_merged (s u : MessageResponseState) (w : World) :
  exists s' n,
    apply_update s u w = (Ok s', mkWorld (events w) n) /\ merged s u s'.
Proof.
  destruct (apply_update_spec s u w) as (l & n & E).
  do 2 eexists. split; [exact E|].
  unfold merged; simpl. repeat split.
Qed.

(** Calling a node: the call is recorded, then whatever the node does, then
    the state that results from folding in what the node returned. *)
Lemma run_node_spec (g : StateGraph) (v : string)
    (action : MessageResponseState -> M MessageResponseState)
    (s : MessageResponseState) (w : World) :
  assoc v (nodes g) = Some action ->
  let w0 := mkWorld (events w ++ [NodeCalled v]) (next_id w) in
  match run_node g v s w with
  | (Ok s', w') =>
      exists update w1,
        action s w0 = (Ok update, w1) /\ merged s update s' /\
        events w' = (events w1 ++ [Checkpoint s'])%list
  | (Raise e, w') => action s w0 = (Raise e, w')
  end.
Proof.
  intros Ha. unfold run_node. rewrite Ha. unfold bind at 1. simpl.
  unfold bind at 1.
  destruct (action s _) as [[update|e] w1] eqn:Eact; [|reflexivity].
  unfold bind at 1.
  destruct (apply_update_merged s update w1) as (s' & n & E & Hm).
  rewrite E. unfold bind, log, ret. simpl.
  exists update, w1. auto.
Qed.

Lemma run_node_unfold (g : StateGraph) (v : string)
    (action : MessageResponseState -> M MessageResponseState)
    (s : MessageResponseState) (w : World) :
  assoc v (nodes g) = Some action ->
  run_node g v s w =
  match action s (mkWorld (events w ++ [NodeCalled v]) (next_id w)) with
  | (Raise e, w1) => (Raise e, w1)
  | (Ok update, w1) =>
      match apply_update s update w1 with
      | (Raise e, w2) => (Raise e, w2)
      | (Ok s', w2) =>
          (Ok s', mkWorld (events w2 ++ [Checkpoint s']) (next_id w2))
      end
  end.
Proof.
  intros Ha. unfold run_node. rewrite Ha. unfold bind, log, ret. simpl.
  destruct (action s _) as [[update|e] w1]; [|reflexivity].
  destruct (apply_update s update w1) as [[s'|e] w2]; reflexivity.
Qed.

Lemma run_node_unknown (g : StateGraph) (v : string)
    (s : MessageResponseState) (w : World) :
  assoc v (nodes g) = None -> run_node g v s w = (Raise (KeyError v), w).
Proof. intros Ha. unfold run_node. rewrite Ha. reflexivity. Qed.

(** ** What each node returns and what it asks of the model *)

Lemma writer_node_spec (s : MessageResponseState) (w : World) :
  match writer_node s w with
  | (Ok update, w') =>
      exists request text,
        invoke llm (events w) request = Ok text /\
        update = _update_writer_state s text /\
        events w' = (events w ++ [Invoke request])%list
  | (Raise e, w') =>
      exists calls,
        events w' = (events w ++ calls)%list /\
        forallb is_model_call calls = true
  end.
Proof.
  unfold writer_node, _create_writer_messages, state_messages, bind.
  destruct (messages s) as [l|]; simpl.
  2:{ exists []. rewrite app_nil_r. auto. }
  match goal with |- context [truthy ?f] => destruct (truthy f) end;
    simpl; unfold llm_invoke;
    match goal with |- context [invoke llm ?h ?r] =>
      destruct (invoke llm h r) as [text|e] eqn:E end; simpl;
    try (do 2 eexists; repeat split; exact E);
    eexists [_]; split; reflexivity.
Qed.

Lemma reviewer_node_spec (s : MessageResponseState) (w : World) :
  match reviewer_node s w with
  | (Ok update, w') =>
      revision_count update = revision_count s /\
      original_customer_message update = original_customer_message s /\
      latest_message_response_by_writer update = latest_message_response_by_writer s /\
      ((MAX_REVISIONS <= get (revision_count s) 0 /\
        w' = w /\
        latest_feedback_for_writer update = latest_feedback_for_writer s /\
        latest_reviewer_decision update = Some (Decision_value APPROVE) /\
        continue_revision update = Some false)
       \/
       (get (revision_count s) 0 < MAX_REVISIONS /\
        exists request text answer,
          invoke llm (events w) request = Ok text /\
          structured_invoke llm (events w ++ [Invoke request]) (decision_prompt text)
            = Ok answer /\
          events w' =
            (events w ++ [Invoke request; StructuredInvoke (decision_prompt text)])%list /\
          latest_feedback_for_writer update = Some text /\
          latest_reviewer_decision update = Some (get answer (Decision_value REVISE)) /\
          continue_revision update =
            Some (String.eqb (get answer (Decision_value REVISE)) (Decision_value REVISE)
                  && (get (revision_count s) 0 <? MAX_REVISIONS))))
  | (Raise e, w') =>
      get (revision_count s) 0 < MAX_REVISIONS /\
      exists calls,
        events w' = (events w ++ calls)%list /\
        forallb is_model_call calls = true
  end.
Proof.
  unfold reviewer_node.
  destruct (MAX_REVISIONS <=? get (revision_count s) 0) eqn:Ecap.
  - apply Z.leb_le in Ecap. unfold ret. simpl.
    repeat split. left. repeat split. exact Ecap.
  - apply Z.leb_gt in Ecap.
    unfold state_messages, bind.
    destruct (messages s) as [l|]; simpl.
    2:{ split; [exact Ecap|]. exists []. rewrite app_nil_r. auto. }
    unfold llm_invoke.
    match goal with |- context [invoke llm ?h ?r] =>
      destruct (invoke llm h r) as [text|e] eqn:E end; simpl.
    2:{ split; [exact Ecap|]. eexists [_]. split; reflexivity. }
    unfold llm_structured_invoke. simpl.
    match goal with |- context [structured_invoke llm ?h ?r] =>
      destruct (structured_invoke llm h r) as [answer|e] eqn:E2 end; simpl.
    2:{ split; [exact Ecap|]. eexists [_; _]. rewrite <- app_assoc. split; reflexivity. }
    repeat split. right. split; [exact Ecap|].
    do 3 eexists. rewrite <- app_assoc. simpl.
    repeat split; [exact E | exact E2].
Qed.

Lemma publisher_node_spec (s : MessageResponseState) (w : World) :
  exists update,
    publisher_node s w = (Ok update, w) /\
    revision_count update = revision_count s /\
    original_customer_message update = original_customer_message s /\
    latest_feedback_for_writer update = latest_feedback_for_writer s /\
    latest_message_response_by_writer update = latest_message_response_by_writer s /\
    latest_reviewer_decision update = latest_reviewer_decision s /\
    continue_revision update = continue_revision s.
Proof. eexists. unfold publisher_node, ret. repeat split. Qed.

(** ** The three steps of the reflection graph *)

Lemma run_writer (s : MessageResponseState) (w : World) :
  match run_node create_reflection_graph (NodeName_value WRITER) s w with
  | (Ok s', w') =>
      (exists request,
         events w' =
           (events w ++ [NodeCalled (NodeName_value WRITER); Invoke request;
                         Checkpoint s'])%list) /\
      revision_count s' = Some (get (revision_count s) 0 + 1) /\
      original_customer_message s' = original_customer_message s /\
      latest_feedback_for_writer s' = latest_feedback_for_writer s /\
      latest_reviewer_decision s' = latest_reviewer_decision s /\
      continue_revision s' = continue_revision s
  | (Raise e, w') =>
      exists calls,
        events w' = (events w ++ NodeCalled (NodeName_value WRITER) :: calls)%list /\
        forallb is_model_call calls = true
  end.
Proof.
  pose proof (run_node_spec create_reflection_graph (NodeName_value WRITER)
                writer_node s w eq_refl) as H.
  cbv zeta in H.
  destruct (run_node create_reflection_graph (NodeName_value WRITER) s w)
    as [[s'|e] w'].
  - destruct H as (update & w1 & Ew & Hm & Hev).
    pose proof (writer_node_spec s
                  (mkWorld (events w ++ [NodeCalled (NodeName_value WRITER)])
                           (next_id w))) as Hw.
    rewrite Ew in Hw. destruct Hw as (request & text & _ & Hu & Hev1).
    simpl in Hev1. subst update.
    destruct Hm as (Hrc & Ho & Hf & _ & Hd & Hc). simpl in *.
    rewrite last_value_same in Ho. rewrite last_value_same in Hf.
    rewrite last_value_same in Hd. rewrite last_value_same in Hc.
    repeat split; try assumption.
    exists request. rewrite Hev, Hev1, <- !app_assoc. reflexivity.
  - pose proof (writer_node_spec s
                  (mkWorld (events w ++ [NodeCalled (NodeName_value WRITER)])
                           (next_id w))) as Hw.
    rewrite H in Hw. destruct Hw as (calls & Hev & Hq). simpl in Hev.
    exists calls. rewrite Hev, <- app_assoc. auto.
Qed.

Lemma run_reviewer (s : MessageResponseState) (w : World) :
  match run_node create_reflection_graph (NodeName_value REVIEWER) s w with
  | (Ok s', w') =>
      (exists calls,
         events w' =
           (events w ++ NodeCalled (NodeName_value REVIEWER) :: calls
            ++ [Checkpoint s'])%list /\
         forallb is_model_call calls = true) /\
      revision_count s' = revision_count s /\
      original_customer_message s' = original_customer_message s /\
      ((MAX_REVISIONS <= get (revision_count s) 0 /\
        latest_feedback_for_writer s' = latest_feedback_for_writer s /\
        latest_reviewer_decision s' = Some (Decision_value APPROVE) /\
        continue_revision s' = Some false)
       \/
       (get (revision_count s) 0 < MAX_REVISIONS /\
        exists text decision,
          latest_feedback_for_writer s' = Some text /\
          latest_reviewer_decision s' = Some decision /\
          continue_revision s' =
            Some (String.eqb decision (Decision_value REVISE))))
  | (Raise e, w') =>
      exists calls,
        events w' = (events w ++ NodeCalled (NodeName_value REVIEWER) :: calls)%list /\
        forallb is_model_call calls = true
  end.
Proof.
  pose proof (run_node_spec create_reflection_graph (NodeName_value REVIEWER)
                reviewer_node s w eq_refl) as H.
  cbv zeta in H.
  pose proof (reviewer_node_spec s
                (mkWorld (events w ++ [NodeCalled (NodeName_value REVIEWER)])
                         (next_id w))) as Hr.
  destruct (run_node create_reflection_graph (NodeName_value REVIEWER) s w)
    as [[s'|e] w'].
  - destruct H as (update & w1 & Ew & Hm & Hev).
    rewrite Ew in Hr. destruct Hr as (Urc & Uo & _ & Hcases).
    destruct Hm as (Hrc & Ho & Hf & _ & Hd & Hc).
    rewrite Urc, last_value_same in Hrc. rewrite Uo, last_value_same in Ho.
    destruct Hcases as [(Hcap & Hw & Uf & Ud & Uc)
                       |(Hlt & request & text & answer & _ & _ & Hev1 & Uf & Ud & Uc)].
    + subst w1. simpl in Hev.
      rewrite Uf, last_value_same in Hf. rewrite Ud in Hd. rewrite Uc in Hc.
      repeat split; try assumption.
      * exists []. rewrite Hev, <- app_assoc. auto.
      * left. auto.
    + simpl in Hev1. rewrite Uf in Hf. rewrite Ud in Hd. rewrite Uc in Hc.
      repeat split; try assumption.
      * eexists [_; _]. rewrite Hev, Hev1, <- !app_assoc. simpl. auto.
      * right. split; [assumption|].
        exists text, (get answer (Decision_value REVISE)).
        simpl in Hc. apply Z.ltb_lt in Hlt. rewrite Hlt, andb_true_r in Hc. auto.
  - rewrite H in Hr. destruct Hr as (_ & calls & Hev & Hq). simpl in Hev.
    exists calls. rewrite Hev, <- app_assoc. auto.
Qed.

Lemma run_publisher (s : MessageResponseState) (w : World) :
  exists s' w',
    run_node create_reflection_graph (NodeName_value PUBLISHER) s w = (Ok s', w') /\
    events w' = (events w ++ [NodeCalled (NodeName_value PUBLISHER); Checkpoint s'])%list /\
    revision_count s' = revision_count s /\
    original_customer_message s' = original_customer_message s /\
    latest_feedback_for_writer s' = latest_feedback_for_writer s /\
    latest_reviewer_decision s' = latest_reviewer_decision s /\
    continue_revision s' = continue_revision s.
Proof.
  pose proof (run_node_spec create_reflection_graph (NodeName_value PUBLISHER)
                publisher_node s w eq_refl) as H.
  cbv zeta in H.
  destruct (publisher_node_spec s
              (mkWorld (events w ++ [NodeCalled (NodeName_value PUBLISHER)])
                       (next_id w)))
    as (update & Ep & Urc & Uo & Uf & _ & Ud & Uc).
  destruct (run_node create_reflection_graph (NodeName_value PUBLISHER) s w)
    as [[s'|e] w'].
  - destruct H as (update' & w1 & Ew & Hm & Hev).
    rewrite Ep in Ew. injection Ew as <- <-.
    destruct Hm as (Hrc & Ho & Hf & _ & Hd & Hc).
    rewrite Urc, last_value_same in Hrc. rewrite Uo, last_value_same in Ho.
    rewrite Uf, last_value_same in Hf. rewrite Ud, last_value_same in Hd.
    rewrite Uc, last_value_same in Hc.
    exists s', w'. repeat split; try assumption.
    rewrite Hev. simpl. rewrite <- app_assoc. reflexivity.
  - rewrite Ep in H. discriminate.
Qed.

(** Any other name is not a node of the graph. *)
Lemma run_other (v : string) (s : MessageResponseState) (w : World) :
  v <> NodeName_value WRITER -> v <> NodeName_value REVIEWER ->
  v <> NodeName_value PUBLISHER ->
  run_node create_reflection_graph v s w = (Raise (KeyError v), w).
Proof.
  intros Hw Hr Hp. apply run_node_unknown.
  apply String.eqb_neq in Hw, Hr, Hp. simpl in *.
  rewrite Hw, Hr, Hp. reflexivity.
Qed.

Lemma next_after_reviewer (s : MessageResponseState) :
  next_vertex create_reflection_graph (NodeName_value REVIEWER) s =
  Some (should_continue s).
Proof.
  unfold next_vertex. simpl. unfold should_continue.
  destruct (get (continue_revision s) false); reflexivity.
Qed.

Lemma next_after_start (s : MessageResponseState) :
  next_vertex create_reflection_graph START s = Some (NodeName_value WRITER).
Proof. reflexivity. Qed.

Lemma next_after_writer (s : MessageResponseState) :
  next_vertex create_reflection_graph (NodeName_value WRITER) s =
  Some (NodeName_value REVIEWER).
Proof. reflexivity. Qed.

Lemma next_after_publisher (s : MessageResponseState) :
  next_vertex create_reflection_graph (NodeName_value PUBLISHER) s = Some END.
Proof. reflexivity. Qed.

Lemma should_continue_cases (s : MessageResponseState) :
  (continue_revision s = Some true /\ should_continue s = NodeName_value WRITER) \/
  (continue_revision s <> Some true /\ should_continue s = NodeName_value PUBLISHER).
Proof.
  unfold should_continue. destruct (continue_revision s) as [[|]|]; simpl.
  - left. auto.
  - right. split; [discriminate|reflexivity].
  - right. split; [discriminate|reflexivity].
Qed.

(** A run starts by storing the input and then stands at [START]. *)
Lemma process_start (fuel : nat) (customer_message : string) :
  exists s0 w0,
    process_customer_message fuel customer_message init_world =
      run_from fuel create_reflection_graph START s0 w0 /\
    events w0 = [Checkpoint s0] /\
    messages s0 = Some [with_id (HumanMessage customer_message None) 0] /\
    revision_count s0 = Some 0 /\
    original_customer_message s0 = Some customer_message /\
    latest_feedback_for_writer s0 = Some "" /\
    latest_reviewer_decision s0 = Some (Decision_value REVISE) /\
    continue_revision s0 = Some true.
Proof.
  do 2 eexists. split; [reflexivity|]. simpl. repeat split.
Qed.

(** ** The run as a whole *)

Ltac count_events :=
  repeat first [rewrite count_node_app | progress (cbn [count_node])];
  repeat match goal with
         | H : forallb is_model_call ?c = true |- context [count_node ?n ?c] =>
             rewrite (proj1 (model_calls_only n c H))
         end.

(** C1. With a non-negative cap, every run calls the Writer at most
    [MAX_REVISIONS + 1] times; a run that reaches its end does so with
    [0 < revision_count <= MAX_REVISIONS + 1]; and a run given
    [2 * MAX_REVISIONS + 5] steps does reach an outcome, so the loop cannot
    go on without bound. *)
Theorem run_is_bounded (fuel : nat) (customer_message : string) :
  0 <= MAX_REVISIONS ->
  let run := process_customer_message fuel customer_message init_world in
  Z.of_nat (count_node (NodeName_value WRITER) (events (snd run)))
    <= MAX_REVISIONS + 1 /\
  (forall final, fst run = Some (Ok final) ->
     0 < get (revision_count final) 0 <= MAX_REVISIONS + 1) /\
  (2 * MAX_REVISIONS + 5 <= Z.of_nat fuel -> fst run <> None).
Proof.
  intros Hmax run. subst run.
  destruct (process_start fuel customer_message)
    as (s0 & w0 & E & Hev & _ & Hrc & _).
  rewrite E. clear E.
  set (enough := 2 * MAX_REVISIONS + 5 <= Z.of_nat fuel).
  set (calls := fun evs => Z.of_nat (count_node (NodeName_value WRITER) evs)).
  set (rc := fun s : MessageResponseState => get (revision_count s) 0).
  pose (I := fun (f : nat) (v : string) (s : MessageResponseState) (evs : list Event) =>
    (v = START /\ calls evs = 0 /\ rc s = 0 /\
     (enough -> 2 * Z.max 1 MAX_REVISIONS + 3 <= Z.of_nat f)) \/
    (v = NodeName_value WRITER /\ calls evs = rc s /\
     (rc s = 0 \/ 0 < rc s < MAX_REVISIONS) /\
     (enough -> 2 * (Z.max 1 MAX_REVISIONS - rc s) + 2 <= Z.of_nat f)) \/
    (v = NodeName_value REVIEWER /\ calls evs = rc s /\
     0 < rc s /\ (rc s = 1 \/ rc s <= MAX_REVISIONS) /\
     (enough -> 2 * (Z.max 1 MAX_REVISIONS - rc s) + 3 <= Z.of_nat f)) \/
    (v = NodeName_value PUBLISHER /\ calls evs = rc s /\
     0 < rc s /\ (rc s = 1 \/ rc s <= MAX_REVISIONS) /\
     (enough -> 2 <= Z.of_nat f)) \/
    (v = END /\ calls evs = rc s /\
     0 < rc s /\ (rc s = 1 \/ rc s <= MAX_REVISIONS) /\
     (enough -> 1 <= Z.of_nat f))).
  pose (Q := fun (r : option (Res MessageResponseState)) (evs : list Event) =>
    calls evs <= MAX_REVISIONS + 1 /\
    (forall final, r = Some (Ok final) -> 0 < rc final <= MAX_REVISIONS + 1) /\
    (enough -> r <> None)).
  change (Q (fst (run_from fuel create_reflection_graph START s0 w0))
            (events (snd (run_from fuel create_reflection_graph START s0 w0)))).
  apply (run_from_invariant create_reflection_graph I Q).
  - (* the budget is used up *)
    intros v s evs Hi. unfold Q.
    destruct Hi as [(_ & Hc & Hr & Hf)|[(_ & Hc & Hr & Hf)|[(_ & Hc & Hp & Hr & Hf)
                   |[(_ & Hc & Hp & Hr & Hf)|(_ & Hc & Hp & Hr & Hf)]]]];
      (split; [lia|]); (split; [discriminate|]); intros He; specialize (Hf He);
      exfalso; lia.
  - (* at END *)
    intros f s evs Hi. unfold Q.
    destruct Hi as [(Hv & _)|[(Hv & _)|[(Hv & _)|[(Hv & _)|(_ & Hc & Hp & Hr & Hf)]]]];
      try discriminate Hv.
    split; [lia|]. split; [|discriminate].
    intros final Ef. injection Ef as <-. lia.
  - (* at START *)
    intros f s evs Hi. rewrite next_after_start.
    destruct Hi as [(_ & Hc & Hr & Hf)|[(Hv & _)|[(Hv & _)|[(Hv & _)|(Hv & _)]]]];
      try discriminate Hv.
    right. left. split; [reflexivity|]. repeat split; try lia; try (intros He; specialize (Hf He); lia).
  - (* at a node *)
    intros f v s w Hns Hne Hi.
    destruct Hi as [(Hv & _)|[(Hv & Hc & Hr & Hf)|[(Hv & Hc & Hp & Hr & Hf)
                   |[(Hv & Hc & Hp & Hr & Hf)|(Hv & _)]]]]; try contradiction; subst v.
    + (* the Writer *)
      pose proof (run_writer s w) as Hw.
      destruct (run_node create_reflection_graph (NodeName_value WRITER) s w)
        as [[s' | e] w'].
      * destruct Hw as ((request & Hev') & Hrc' & _).
        rewrite next_after_writer.
        assert (Hn : calls (events w') = calls (events w) + 1).
        { unfold calls. rewrite Hev'. count_events. simpl. lia. }
        assert (Hs : rc s' = rc s + 1) by (unfold rc; rewrite Hrc'; reflexivity).
        right. right. left. split; [reflexivity|].
        repeat split; try lia; try (intros He; specialize (Hf He); lia).
      * destruct Hw as (cs & Hev' & Hq).
        assert (Hn : calls (events w') = calls (events w) + 1).
        { unfold calls. rewrite Hev'. count_events. simpl. lia. }
        unfold Q. split; [lia|]. split; [discriminate|]. discriminate.
    + (* the Reviewer *)
      pose proof (run_reviewer s w) as Hw.
      destruct (run_node create_reflection_graph (NodeName_value REVIEWER) s w)
        as [[s' | e] w'].
      * destruct Hw as ((cs & Hev' & Hq) & Hrc' & _ & Hcases).
        rewrite next_after_reviewer.
        assert (Hn : calls (events w') = calls (events w)).
        { unfold calls. rewrite Hev'. count_events. simpl. lia. }
        assert (Hs : rc s' = rc s) by (unfold rc; rewrite Hrc'; reflexivity).
        destruct (should_continue_cases s') as [(Ht & ->)|(Ht & ->)].
        -- destruct Hcases as [(_ & _ & _ & Hc')|(Hlt & _)]; [congruence|].
           fold (rc s) in Hlt.
           right. left. split; [reflexivity|].
           repeat split; try lia; try (intros He; specialize (Hf He); lia).
        -- right. right. right. left. split; [reflexivity|].
           repeat split; try lia; try (intros He; specialize (Hf He); lia).
      * destruct Hw as (cs & Hev' & Hq).
        assert (Hn : calls (events w') = calls (events w)).
        { unfold calls. rewrite Hev'. count_events. simpl. lia. }
        unfold Q. split; [lia|]. split; [discriminate|]. discriminate.
    + (* the Publisher *)
      destruct (run_publisher s w) as (s' & w' & Er & Hev' & Hrc' & _).
      rewrite Er, next_after_publisher.
      assert (Hn : calls (events w') = calls (events w)).
      { unfold calls. rewrite Hev'. count_events. simpl. lia. }
      assert (Hs : rc s' = rc s) by (unfold rc; rewrite Hrc'; reflexivity).
      right. right. right. right. split; [reflexivity|].
      repeat split; try lia; try (intros He; specialize (Hf He); lia).
  - (* the start of the run *)
    left. split; [reflexivity|].
    split; [unfold calls; rewrite Hev; reflexivity|].
    split; [unfold rc; rewrite Hrc; reflexivity|].
    unfold enough. lia.
Qed.

(** ** The log under the reducer *)

Lemma index_of_id_lt (i : nat) (l : list Message) (k : nat) :
  index_of_id i l = Some k -> (k < List.length l)%nat.
Proof.
  revert k. induction l as [|x l IH]; simpl; intros k H; [discriminate H|].
  destruct (index_of_id i l) as [k'|].
  - injection H as <-. specialize (IH k' eq_refl). lia.
  - destruct (has_id i x); [|discriminate H]. injection H as <-. lia.
Qed.

Lemma replace_at_in (k : nat) (m : Message) (l : list Message) :
  (k < List.length l)%nat -> In m (replace_at k m l).
Proof.
  revert k. induction l as [|x l IH]; simpl; intros k H; [lia|].
  destruct k as [|k]; [left; reflexivity|].
  right. apply IH. lia.
Qed.

Lemma replace_at_keeps (j k : nat) (m x : Message) (l : list Message) :
  index_of_id j l = Some k -> has_id j x = false -> In x l ->
  In x (replace_at k m l).
Proof.
  revert k. induction l as [|y l IH]; simpl; intros k Hk Hx Hin; [contradiction|].
  destruct (index_of_id j l) as [k'|].
  - injection Hk as <-. destruct Hin as [->|Hin]; [left; reflexivity|].
    right. apply IH; auto.
  - destruct (has_id j y) eqn:Hy; [|discriminate Hk]. injection Hk as <-.
    destruct Hin as [->|Hin]; [congruence|]. right. exact Hin.
Qed.

(** A merged message is in the log afterwards, and merging a message keeps
    every entry that carries another identifier. *)
Lemma merge_message_in (l : list Message) (m : Message) :
  In m (merge_message l m).
Proof.
  unfold merge_message. destruct (msg_id m) as [i|].
  - destruct (index_of_id i l) as [k|] eqn:E.
    + apply replace_at_in. eapply index_of_id_lt. exact E.
    + apply in_or_app. right. left. reflexivity.
  - apply in_or_app. right. left. reflexivity.
Qed.

Lemma merge_message_keeps (l : list Message) (m x : Message) (i j : nat) :
  msg_id x = Some i -> msg_id m = Some j -> i <> j -> In x l ->
  In x (merge_message l m).
Proof.
  intros Hx Hm Hij Hin. unfold merge_message. rewrite Hm.
  destruct (index_of_id j l) as [k|] eqn:E.
  - eapply replace_at_keeps; [exact E| |exact Hin].
    unfold has_id. rewrite Hx. apply Nat.eqb_neq. auto.
  - apply in_or_app. left. exact Hin.
Qed.

(** The first of three fresh messages is in the log after the update. *)
Lemma apply_update_first_of_three (s u : MessageResponseState) (w : World)
    (m1 m2 m3 : Message) :
  messages u = Some [m1; m2; m3] ->
  msg_id m1 = None -> msg_id m2 = None -> msg_id m3 = None ->
  exists i entries,
    messages (match fst (apply_update s u w) with
              | Ok s' => s'
              | Raise _ => s
              end) = Some entries /\
    In (with_id m1 i) entries.
Proof.
  intros Hu H1 H2 H3. unfold apply_update, bind, add_messages. rewrite Hu.
  destruct (assign_ids (get (messages s) []) (next_id w)) as [left' n1].
  cbn [assign_ids]. rewrite H1, H2, H3. cbn [assign_ids fold_left ret fst messages].
  exists n1. eexists. split; [reflexivity|].
  eapply merge_message_keeps with (i := n1) (j := S (S n1));
    [reflexivity | reflexivity | lia |].
  eapply merge_message_keeps with (i := n1) (j := S n1);
    [reflexivity | reflexivity | lia |].
  apply merge_message_in.
Qed.

(** ** The Reviewer *)

(** C2. When [revision_count >= MAX_REVISIONS] the Reviewer returns at once:
    the decision is APPROVE, the continue flag is false, the entries it
    hands to the log begin with the configured cap message, and the world
    comes back untouched, so the model was not called.  The step of the
    graph that runs it then stores a state whose log holds that message,
    authored by the Reviewer. *)
Theorem reviewer_cap_short_circuit (state : MessageResponseState) (w : World) :
  MAX_REVISIONS <= get (revision_count state) 0 ->
  (exists update entries,
     reviewer_node state w = (Ok update, w) /\
     latest_reviewer_decision update = Some (Decision_value APPROVE) /\
     continue_revision update = Some false /\
     messages update =
       Some (HumanMessage MAX_REVISIONS_MESSAGE (Some (NodeName_value REVIEWER))
             :: entries) /\
     model_calls (events (snd (reviewer_node state w))) = model_calls (events w)) /\
  (exists stored w' entries entry,
     run_node create_reflection_graph (NodeName_value REVIEWER) state w
       = (Ok stored, w') /\
     model_calls (events w') = model_calls (events w) /\
     latest_reviewer_decision stored = Some (Decision_value APPROVE) /\
     continue_revision stored = Some false /\
     messages stored = Some entries /\
     In entry entries /\
     msg_content entry = MAX_REVISIONS_MESSAGE /\
     msg_name entry = Some (NodeName_value REVIEWER)).
Proof.
  intros Hcap. pose proof Hcap as Hle. apply Z.leb_le in Hcap. split.
  - unfold reviewer_node. rewrite Hcap. unfold ret. simpl.
    do 2 eexists. repeat split.
  - set (w0 := mkWorld (events w ++ [NodeCalled (NodeName_value REVIEWER)])
                       (next_id w)).
    assert (Hnode : exists update m2 m3,
      reviewer_node state w0 = (Ok update, w0) /\
      messages update =
        Some [HumanMessage MAX_REVISIONS_MESSAGE (Some (NodeName_value REVIEWER));
              m2; m3] /\
      msg_id m2 = None /\ msg_id m3 = None /\
      latest_reviewer_decision update = Some (Decision_value APPROVE) /\
      continue_revision update = Some false).
    { unfold reviewer_node. rewrite Hcap. unfold ret.
      do 3 eexists. split; [reflexivity|]. repeat split. }
    destruct Hnode as (update & m2 & m3 & En & Hm & Hi2 & Hi3 & Hd & Hc).
    destruct (apply_update_first_of_three state update w0 _ m2 m3 Hm
                eq_refl Hi2 Hi3) as (i & entries & Hlog & Hin).
    destruct (apply_update_merged state update w0)
      as (stored & n & Ea & (_ & _ & _ & _ & Hsd & Hsc)).
    rewrite Ea in Hlog. cbn [fst] in Hlog.
    rewrite Hd in Hsd. rewrite Hc in Hsc.
    exists stored, (mkWorld (events w0 ++ [Checkpoint stored]) n), entries,
      (with_id (HumanMessage MAX_REVISIONS_MESSAGE (Some (NodeName_value REVIEWER))) i).
    split.
    { rewrite (run_node_unfold create_reflection_graph (NodeName_value REVIEWER)
                 reviewer_node state w eq_refl).
      fold w0. rewrite En, Ea. reflexivity. }
    split.
    { unfold model_calls, w0. cbn [events]. rewrite !filter_app. simpl.
      rewrite !app_nil_r. reflexivity. }
    repeat split; assumption.
Qed.

(** C4. A Reviewer call that the cap does not cut short leaves
    [continue_revision = (decision == REVISE) and (revision_count <
    MAX_REVISIONS)]; and after any Reviewer call, an APPROVE decision comes
    with a false continue flag, in what the node returns and in the state
    the graph stores after it. *)
Theorem reviewer_continue_flag (state update : MessageResponseState) (w w' : World) :
  reviewer_node state w = (Ok update, w') ->
  (get (revision_count state) 0 < MAX_REVISIONS ->
   continue_revision update =
     Some (opt_string_eqb (latest_reviewer_decision update) (Decision_value REVISE)
           && (get (revision_count update) 0 <? MAX_REVISIONS))) /\
  (latest_reviewer_decision update = Some (Decision_value APPROVE) ->
   continue_revision update = Some false) /\
  (forall stored w1 w2,
     run_node create_reflection_graph (NodeName_value REVIEWER) state w1
       = (Ok stored, w2) ->
     latest_reviewer_decision stored = Some (Decision_value APPROVE) ->
     continue_revision stored = Some false).
Proof.
  intros E. pose proof (reviewer_node_spec state w) as H. rewrite E in H.
  assert (Hstored : forall stored w1 w2,
     run_node create_reflection_graph (NodeName_value REVIEWER) state w1
       = (Ok stored, w2) ->
     latest_reviewer_decision stored = Some (Decision_value APPROVE) ->
     continue_revision stored = Some false).
  { intros stored w1 w2 Er Ha.
    pose proof (run_reviewer state w1) as Hr. rewrite Er in Hr.
    destruct Hr as (_ & _ & _ & [(_ & _ & _ & Hc)|(_ & text & d & _ & Hd & Hc)]).
    - exact Hc.
    - rewrite Hd in Ha. injection Ha as ->. rewrite Hc. reflexivity. }
  destruct H as (Hrc & _ & _ & [(Hcap & _ & _ & Hd & Hc)
                               |(Hlt & request & text & answer & _ & _ & _ & _ & Hd & Hc)]).
  - split; [lia|]. split; [auto|exact Hstored].
  - split; [|split; [|exact Hstored]].
    + intros _. rewrite Hc, Hd, Hrc. reflexivity.
    + intros Ha. rewrite Hd in Ha. injection Ha as Ha.
      rewrite Hc. simpl in *. rewrite Ha. reflexivity.
Qed.

(** ** The router *)

(** C3. [should_continue] answers the Writer exactly when
    [continue_revision] is true, the Publisher when it is false or missing,
    and two states with the same flag get the same answer. *)
Theorem should_continue_routes (state : MessageResponseState) :
  (should_continue state = NodeName_value WRITER <->
   continue_revision state = Some true) /\
  (should_continue state = NodeName_value PUBLISHER <->
   continue_revision state = Some false \/ continue_revision state = None) /\
  (forall other : MessageResponseState,
     continue_revision other = continue_revision state ->
     should_continue other = should_continue state).
Proof.
  unfold should_continue. split; [|split].
  - destruct (continue_revision state) as [[|]|]; simpl; split;
      intros H; try reflexivity; discriminate H.
  - destruct (continue_revision state) as [[|]|]; simpl; split; intros H;
      auto; try discriminate H.
    destruct H as [H|H]; discriminate H.
  - intros other H. rewrite H. reflexivity.
Qed.

(** ** The Writer's request *)

(** With a log to read, the Writer sends exactly one request: the system
    prompt, the log, the original message and, under the three conditions
    below, the feedback directive. *)
Lemma writer_node_request (state : MessageResponseState) (w : World)
    (entries : list Message) :
  messages state = Some entries ->
  let base :=
    (RoleDict "system" writer_instructions :: map Msg entries
     ++ [Msg (HumanMessage
                (original_message_text (get (original_customer_message state) ""))
                None)])%list in
  let feedback := get (latest_feedback_for_writer state) "" in
  events (snd (writer_node state w)) =
  (events w ++
   [Invoke (base ++
            if (0 <? get (revision_count state) 0)
               && opt_string_eqb (latest_reviewer_decision state) (Decision_value REVISE)
               && negb (String.eqb feedback "")
            then [Msg (HumanMessage (feedback_message feedback) None)]
            else [])])%list.
Proof.
  intros Hm. cbv zeta.
  unfold writer_node, _create_writer_messages, state_messages, bind.
  rewrite Hm. unfold ret at 1.
  destruct ((0 <? get (revision_count state) 0)
            && opt_string_eqb (latest_reviewer_decision state) (Decision_value REVISE))
    eqn:Econd; cbn [truthy andb].
  - destruct (String.eqb (get (latest_feedback_for_writer state) "") "") eqn:Efb;
      cbn [negb]; unfold ret, llm_invoke; cbn [events snd fst];
      [rewrite app_nil_r|];
      match goal with |- context [invoke llm ?h ?r] => destruct (invoke llm h r) end;
      reflexivity.
  - unfold ret, llm_invoke; cbn [events snd fst]. rewrite app_nil_r.
    match goal with |- context [invoke llm ?h ?r] => destruct (invoke llm h r) end;
      reflexivity.
Qed.

(** C8, as the code has it.  The Writer puts the feedback directive into its
    request exactly when [revision_count > 0], the latest decision is REVISE
    and the feedback text is not empty; otherwise the request ends with the
    original message.  On the first call ([revision_count = 0]) no feedback
    goes in, whatever the state holds. *)
Theorem writer_feedback_inclusion (state : MessageResponseState) (w : World)
    (entries : list Message) :
  messages state = Some entries ->
  let base :=
    (RoleDict "system" writer_instructions :: map Msg entries
     ++ [Msg (HumanMessage
                (original_message_text (get (original_customer_message state) ""))
                None)])%list in
  let feedback := get (latest_feedback_for_writer state) "" in
  let directive := Msg (HumanMessage (feedback_message feedback) None) in
  let revising :=
    0 < get (revision_count state) 0 /\
    latest_reviewer_decision state = Some (Decision_value REVISE) /\
    feedback <> "" in
  exists request,
    events (snd (writer_node state w)) = (events w ++ [Invoke request])%list /\
    (request = (base ++ [directive])%list <-> revising) /\
    (request = base <-> ~ revising) /\
    (get (revision_count state) 0 = 0 -> request = base).
Proof.
  intros Hm base feedback directive revising.
  pose proof (writer_node_request state w entries Hm) as Hreq. cbv zeta in Hreq.
  fold base feedback directive in Hreq.
  assert (Hne : (base ++ [directive])%list <> base).
  { intros H. rewrite <- (app_nil_r base) in H at 2.
    apply app_inv_head in H. discriminate H. }
  assert (Hcond :
    (0 <? get (revision_count state) 0)
    && opt_string_eqb (latest_reviewer_decision state) (Decision_value REVISE)
    && negb (String.eqb feedback "") = true <-> revising).
  { unfold revising. rewrite !andb_true_iff, Z.ltb_lt, negb_true_iff, String.eqb_neq.
    unfold opt_string_eqb.
    destruct (latest_reviewer_decision state) as [d|].
    - rewrite String.eqb_eq. split.
      + intros [[H1 H2] H3]. repeat split; congruence.
      + intros (H1 & H2 & H3). repeat split; congruence.
    - split; [intros [[_ H] _]; discriminate H | intros (_ & H & _); discriminate H]. }
  destruct ((0 <? get (revision_count state) 0)
            && opt_string_eqb (latest_reviewer_decision state) (Decision_value REVISE)
            && negb (String.eqb feedback "")) eqn:Econd.
  - exists (base ++ [directive])%list.
    assert (Hrev : revising) by (apply Hcond; reflexivity).
    split; [exact Hreq|]. split; [tauto|]. split.
    + split; [intros H; contradiction|intros H; contradiction].
    + intros H0. destruct Hrev as (Hpos & _). lia.
  - exists base. rewrite app_nil_r in Hreq.
    assert (Hrev : ~ revising) by (intros H; apply Hcond in H; discriminate H).
    split; [exact Hreq|]. split; [|tauto].
    split; [intros H; symmetry in H; contradiction | intros H; contradiction].
Qed.

(** C6, as the code has it.  Below the cap, with a log to read and a critique
    from the model: an extraction answer without a decision counts as
    REVISE and the loop continues; a decision that is present is stored as
    it is and the loop continues only if it is exactly REVISE; a failing
    extraction makes the Reviewer fail with the same error. *)
Theorem reviewer_decision_default (state : MessageResponseState) (w : World)
    (entries : list Message) (text : string) :
  get (revision_count state) 0 < MAX_REVISIONS ->
  messages state = Some entries ->
  let request :=
    (RoleDict "system" reviewer_instructions :: map Msg entries
     ++ [Msg (HumanMessage
                (review_content (get (original_customer_message state) "")
                                (get (latest_message_response_by_writer state) ""))
                None)])%list in
  invoke llm (events w) request = Ok text ->
  match structured_invoke llm (events w ++ [Invoke request]) (decision_prompt text) with
  | Ok None =>
      exists update w',
        reviewer_node state w = (Ok update, w') /\
        latest_reviewer_decision update = Some (Decision_value REVISE) /\
        continue_revision update = Some true
  | Ok (Some decision) =>
      exists update w',
        reviewer_node state w = (Ok update, w') /\
        latest_reviewer_decision update = Some decision /\
        continue_revision update =
          Some (String.eqb decision (Decision_value REVISE))
  | Raise e => exists w', reviewer_node state w = (Raise e, w')
  end.
Proof.
  intros Hlt Hm request Hinv.
  unfold reviewer_node.
  assert (Hcap : (MAX_REVISIONS <=? get (revision_count state) 0) = false)
    by (apply Z.leb_gt; exact Hlt).
  rewrite Hcap. unfold state_messages. rewrite Hm.
  unfold bind, ret, llm_invoke, llm_structured_invoke.
  cbv beta iota. cbn [events next_id]. fold request. rewrite Hinv.
  destruct (structured_invoke llm (events w ++ [Invoke request]) (decision_prompt text))
    as [[decision|]|e].
  - do 2 eexists. split; [reflexivity|]. cbn [latest_reviewer_decision continue_revision get].
    apply Z.ltb_lt in Hlt. rewrite Hlt, andb_true_r. auto.
  - do 2 eexists. split; [reflexivity|]. cbn [latest_reviewer_decision continue_revision get].
    apply Z.ltb_lt in Hlt. rewrite Hlt. auto.
  - eexists. reflexivity.
Qed.

(** ** Orderings along the stored states *)

Lemma ordered_snoc {A : Type} (R : A -> A -> Prop) (l : list A) (x : A) :
  ForallOrdPairs R l -> Forall (fun a => R a x) l -> ForallOrdPairs R (l ++ [x]).
Proof.
  induction 1 as [|a l Ha Hl IH]; intros Hx; simpl.
  - constructor; constructor.
  - inversion Hx as [|? ? Hax Hlx]; subst. constructor.
    + apply Forall_app. split; [assumption|]. constructor; [assumption|constructor].
    + apply IH. assumption.
Qed.

Lemma ordered_nth {A : Type} (R : A -> A -> Prop) (l : list A) :
  ForallOrdPairs R l ->
  forall i j a b, (i < j)%nat ->
    nth_error l i = Some a -> nth_error l j = Some b -> R a b.
Proof.
  induction 1 as [|x l Hx Hl IH]; intros i j a b Hij Hi Hj.
  - destruct i; discriminate Hi.
  - destruct j as [|j]; [lia|]. simpl in Hj.
    destruct i as [|i]; simpl in Hi.
    + injection Hi as <-. apply nth_error_In in Hj.
      rewrite Forall_forall in Hx. apply Hx. exact Hj.
    + apply (IH i j); [lia | assumption | assumption].
Qed.

(** Every step of the graph stores exactly one state, and only on success. *)
Lemma run_node_checkpoints (v : string) (s : MessageResponseState) (w : World) :
  match run_node create_reflection_graph v s w with
  | (Ok s', w') =>
      checkpoints (events w') = (checkpoints (events w) ++ [s'])%list
  | (Raise e, w') => checkpoints (events w') = checkpoints (events w)
  end.
Proof.
  destruct (string_dec v (NodeName_value WRITER)) as [->|HW];
    [|destruct (string_dec v (NodeName_value REVIEWER)) as [->|HR];
      [|destruct (string_dec v (NodeName_value PUBLISHER)) as [->|HP]]].
  - pose proof (run_writer s w) as H.
    destruct (run_node _ _ s w) as [[s'|e] w'].
    + destruct H as ((request & Hev) & _). rewrite Hev, checkpoints_app.
      reflexivity.
    + destruct H as (calls & Hev & Hq). rewrite Hev, checkpoints_app.
      cbn [checkpoints]. rewrite (proj2 (model_calls_only "" calls Hq)).
      apply app_nil_r.
  - pose proof (run_reviewer s w) as H.
    destruct (run_node _ _ s w) as [[s'|e] w'].
    + destruct H as ((calls & Hev & Hq) & _). rewrite Hev, checkpoints_app.
      cbn [checkpoints]. rewrite checkpoints_app.
      rewrite (proj2 (model_calls_only "" calls Hq)). reflexivity.
    + destruct H as (calls & Hev & Hq). rewrite Hev, checkpoints_app.
      cbn [checkpoints]. rewrite (proj2 (model_calls_only "" calls Hq)).
      apply app_nil_r.
  - destruct (run_publisher s w) as (s' & w' & E & Hev & _).
    rewrite E, Hev, checkpoints_app. reflexivity.
  - rewrite (run_other v s w HW HR HP). reflexivity.
Qed.

(** What a step does to the counter and to the continue flag. *)
Lemma run_node_fields (v : string) (s s' : MessageResponseState) (w w' : World) :
  run_node create_reflection_graph v s w = (Ok s', w') ->
  (v = NodeName_value WRITER /\
   revision_count s' = Some (get (revision_count s) 0 + 1) /\
   latest_feedback_for_writer s' = latest_feedback_for_writer s /\
   continue_revision s' = continue_revision s) \/
  (v = NodeName_value REVIEWER /\
   revision_count s' = revision_count s /\
   exists b, continue_revision s' = Some b) \/
  (v = NodeName_value PUBLISHER /\
   revision_count s' = revision_count s /\
   latest_feedback_for_writer s' = latest_feedback_for_writer s /\
   continue_revision s' = continue_revision s).
Proof.
  intros E.
  destruct (string_dec v (NodeName_value WRITER)) as [->|HW];
    [|destruct (string_dec v (NodeName_value REVIEWER)) as [->|HR];
      [|destruct (string_dec v (NodeName_value PUBLISHER)) as [->|HP]]].
  - pose proof (run_writer s w) as H. rewrite E in H.
    destruct H as (_ & Hrc & _ & Hf & _ & Hc). left. auto.
  - pose proof (run_reviewer s w) as H. rewrite E in H.
    destruct H as (_ & Hrc & _ & [(_ & _ & _ & Hc)|(_ & text & d & _ & _ & Hc)]);
      right; left; eauto.
  - destruct (run_publisher s w) as (s1 & w1 & E1 & _ & Hrc & _ & Hf & _ & Hc).
    rewrite E in E1. injection E1 as <- <-. right. right. auto.
  - rewrite (run_other v s w HW HR HP) in E. discriminate E.
Qed.

(** A relation that every step respects orders the whole list of stored
    states.  [J] is a side condition that may depend on the vertex. *)
Section OrderedRun.

Variable R : MessageResponseState -> MessageResponseState -> Prop.
Variable J : string -> MessageResponseState -> Prop.

Hypothesis R_refl : forall a, R a a.

Hypothesis J_start : forall s, J START s -> J (NodeName_value WRITER) s.

Hypothesis R_step : forall v s w s' w',
  J v s ->
  run_node create_reflection_graph v s w = (Ok s', w') ->
  (forall a, R a s -> R a s') /\
  (forall v', next_vertex create_reflection_graph v s' = Some v' -> J v' s').

Lemma run_checkpoints_ordered (f : nat) (v : string)
    (s : MessageResponseState) (w : World) :
  J v s ->
  ForallOrdPairs R (checkpoints (events w)) ->
  Forall (fun a => R a s) (checkpoints (events w)) ->
  ForallOrdPairs R
    (checkpoints (events (snd (run_from f create_reflection_graph v s w)))).
Proof.
  intros Hj Ho Hs.
  pose (I := fun (_ : nat) (v : string) (s : MessageResponseState)
                 (evs : list Event) =>
    J v s /\ ForallOrdPairs R (checkpoints evs) /\
    Forall (fun a => R a s) (checkpoints evs)).
  pose (Q := fun (_ : option (Res MessageResponseState)) (evs : list Event) =>
    ForallOrdPairs R (checkpoints evs)).
  change (Q (fst (run_from f create_reflection_graph v s w))
            (events (snd (run_from f create_reflection_graph v s w)))).
  apply (run_from_invariant create_reflection_graph I Q); unfold I, Q.
  - intros ? ? ? (_ & H & _). exact H.
  - intros ? ? ? (_ & H & _). exact H.
  - intros f0 s0 evs (Hj0 & H1 & H2). rewrite next_after_start. auto.
  - intros f0 v0 s0 w0 _ _ (Hj0 & H1 & H2).
    pose proof (run_node_checkpoints v0 s0 w0) as Hc.
    destruct (run_node create_reflection_graph v0 s0 w0) as [[s'|e] w'] eqn:E.
    + destruct (R_step v0 s0 w0 s' w' Hj0 E) as (Hmove & Hnext).
      assert (H2' : Forall (fun a => R a s') (checkpoints (events w0)))
        by (eapply Forall_impl; [|exact H2]; exact Hmove).
      assert (H1' : ForallOrdPairs R (checkpoints (events w')))
        by (rewrite Hc; apply ordered_snoc; assumption).
      destruct (next_vertex create_reflection_graph v0 s') as [v'|]; [|exact H1'].
      split; [apply Hnext; reflexivity|]. split; [exact H1'|].
      rewrite Hc. apply Forall_app. split; [exact H2'|].
      constructor; [apply R_refl|constructor].
    + rewrite Hc. exact H1.
  - auto.
Qed.

End OrderedRun.

(** ** The counter and the flag along a run *)

(** C5. The Writer returns [revision_count] one higher (counting from 0 when
    the key is missing); the Reviewer and the Publisher return it as they
    found it; hence a step of the graph adds one at the Writer and nothing
    elsewhere, and along the states a run stores the counter never goes
    down. *)
Theorem revision_count_moves_with_writer :
  (forall state w update w',
     writer_node state w = (Ok update, w') ->
     revision_count update = Some (get (revision_count state) 0 + 1)) /\
  (forall state w update w',
     reviewer_node state w = (Ok update, w') ->
     revision_count update = revision_count state) /\
  (forall state w update w',
     publisher_node state w = (Ok update, w') ->
     revision_count update = revision_count state) /\
  (forall v s w s' w',
     run_node create_reflection_graph v s w = (Ok s', w') ->
     get (revision_count s') 0 =
     get (revision_count s) 0
     + (if String.eqb v (NodeName_value WRITER) then 1 else 0)) /\
  (forall fuel customer_message i j a b,
     let stored :=
       checkpoints
         (events (snd (process_customer_message fuel customer_message init_world))) in
     (i <= j)%nat ->
     nth_error stored i = Some a -> nth_error stored j = Some b ->
     get (revision_count a) 0 <= get (revision_count b) 0).
Proof.
  assert (Hstep : forall v s w s' w',
     run_node create_reflection_graph v s w = (Ok s', w') ->
     get (revision_count s') 0 =
     get (revision_count s) 0
     + (if String.eqb v (NodeName_value WRITER) then 1 else 0)).
  { intros v s w s' w' E.
    destruct (run_node_fields v s s' w w' E)
      as [(-> & Hrc & _)|[(-> & Hrc & _)|(-> & Hrc & _)]]; rewrite Hrc.
    - rewrite String.eqb_refl. reflexivity.
    - simpl. lia.
    - simpl. lia. }
  repeat split.
  - intros state w update w' E.
    pose proof (writer_node_spec state w) as H. rewrite E in H.
    destruct H as (request & text & _ & -> & _). reflexivity.
  - intros state w update w' E.
    pose proof (reviewer_node_spec state w) as H. rewrite E in H.
    destruct H as (Hrc & _). exact Hrc.
  - intros state w update w' E.
    destruct (publisher_node_spec state w) as (u & Ep & Hrc & _).
    rewrite E in Ep. injection Ep as -> _. exact Hrc.
  - exact Hstep.
  - intros fuel customer_message i j a b stored Hij Hi Hj. subst stored.
    destruct (process_start fuel customer_message) as (s0 & w0 & E & Hev & _).
    rewrite E in Hi, Hj.
    destruct (Nat.eq_dec i j) as [->|Hne].
    + rewrite Hi in Hj. injection Hj as ->. lia.
    + refine (ordered_nth
                (fun a b => get (revision_count a) 0 <= get (revision_count b) 0)
                _ _ i j a b _ Hi Hj); [|lia].
      apply (run_checkpoints_ordered _ (fun _ _ => True)).
      * intros; lia.
      * auto.
      * intros v s w s' w' _ Es. split; [|auto].
        intros x Hx. rewrite (Hstep v s w s' w' Es).
        destruct (String.eqb v (NodeName_value WRITER)); lia.
      * exact Logic.I.
      * rewrite Hev. simpl. constructor; constructor.
      * rewrite Hev. simpl. constructor; [lia|constructor].
Qed.

(** C10. Along the states a run stores, once [continue_revision] is false
    (or missing) it is false in every later state. *)
Theorem continue_flag_stays_false (fuel : nat) (customer_message : string)
    (i j : nat) (a b : MessageResponseState) :
  let stored :=
    checkpoints
      (events (snd (process_customer_message fuel customer_message init_world))) in
  (i < j)%nat ->
  nth_error stored i = Some a -> nth_error stored j = Some b ->
  get (continue_revision a) false = false ->
  get (continue_revision b) false = false.
Proof.
  intros stored Hij Hi Hj. subst stored.
  destruct (process_start fuel customer_message)
    as (s0 & w0 & E & Hev & _ & _ & _ & _ & _ & Hc0).
  rewrite E in Hi, Hj.
  refine (ordered_nth
            (fun a b => get (continue_revision a) false = false ->
                        get (continue_revision b) false = false)
            _ _ i j a b Hij Hi Hj).
  apply (run_checkpoints_ordered _
           (fun v s => v = START \/ v = NodeName_value WRITER
                       \/ v = NodeName_value REVIEWER ->
                       continue_revision s = Some true)).
  - auto.
  - intros s Hs _. apply Hs. left. reflexivity.
  - intros v s w s' w' Hj' Es.
    destruct (run_node_fields v s s' w w' Es)
      as [(-> & _ & _ & Hc)|[(-> & _ & bflag & Hc)|(-> & _ & _ & Hc)]].
    + split.
      * intros x Hx. rewrite Hc. exact Hx.
      * intros v' Hv'. rewrite next_after_writer in Hv'. injection Hv' as <-.
        intros _. rewrite Hc. apply Hj'. right. left. reflexivity.
    + assert (Ht : continue_revision s = Some true)
        by (apply Hj'; right; right; reflexivity).
      split.
      * intros x Hx Hf. apply Hx in Hf. rewrite Ht in Hf. discriminate Hf.
      * intros v' Hv'. rewrite next_after_reviewer in Hv'. injection Hv' as <-.
        destruct (should_continue_cases s') as [(Hs' & ->)|(Hs' & ->)].
        -- intros _. exact Hs'.
        -- intros [H|[H|H]]; discriminate H.
    + split.
      * intros x Hx. rewrite Hc. exact Hx.
      * intros v' Hv'. rewrite next_after_publisher in Hv'. injection Hv' as <-.
        intros [H|[H|H]]; discriminate H.
  - intros _. exact Hc0.
  - rewrite Hev. simpl. constructor; constructor.
  - rewrite Hev. simpl. constructor; [auto|constructor].
Qed.

(** ** Before the first review *)

Lemma before_call_app_none (n : string) (a b : list Event) :
  count_node n a = O -> before_call n (a ++ b) = (a ++ before_call n b)%list.
Proof.
  induction a as [|e a IH]; simpl; intros H; [reflexivity|].
  destruct e as [m| | |]; try (rewrite IH; [reflexivity|exact H]).
  destruct (String.eqb m n); [discriminate H|].
  rewrite IH; [reflexivity|exact H].
Qed.

Lemma before_call_app_some (n : string) (a b : list Event) :
  count_node n a <> O -> before_call n (a ++ b) = before_call n a.
Proof.
  induction a as [|e a IH]; simpl; intros H; [contradiction|].
  destruct e as [m| | |]; try (rewrite IH; [reflexivity|exact H]).
  destruct (String.eqb m n); [reflexivity|].
  rewrite IH; [reflexivity|exact H].
Qed.

Lemma before_call_checkpoints (P : MessageResponseState -> Prop) (n : string)
    (evs : list Event) :
  Forall P (checkpoints evs) -> Forall P (checkpoints (before_call n evs)).
Proof.
  induction evs as [|e evs IH]; simpl; intros H; [constructor|].
  destruct e as [m| | |s]; simpl; auto.
  - destruct (String.eqb m n); simpl; auto.
  - inversion H; subst. constructor; auto.
Qed.

(** How the part of the trace before the first call of [n] grows when the
    trace does. *)
Lemma before_call_grows (P : MessageResponseState -> Prop) (n : string)
    (evs more : list Event) :
  Forall P (checkpoints (before_call n evs)) ->
  (count_node n evs = O -> Forall P (checkpoints (before_call n more))) ->
  Forall P (checkpoints (before_call n (evs ++ more))).
Proof.
  intros Hold Hnew.
  destruct (Nat.eq_dec (count_node n evs) O) as [Hz|Hnz].
  - rewrite (before_call_app_none n evs more Hz), checkpoints_app.
    apply Forall_app. split; [|auto].
    pose proof (before_call_app_none n evs [] Hz) as H.
    rewrite !app_nil_r in H. rewrite <- H. exact Hold.
  - rewrite (before_call_app_some n evs more Hnz). exact Hold.
Qed.

(** C9, as the code has it.  In a run the feedback is empty in every state
    stored before the first Reviewer call.  A Reviewer call below the cap
    overwrites the feedback with the text the model answered to the request
    of that very call; a Reviewer call at or above the cap asks the model
    nothing and leaves the feedback as it was. *)
Theorem feedback_follows_reviews :
  (forall fuel customer_message,
     Forall (fun s => latest_feedback_for_writer s = Some "")
       (checkpoints
          (before_call (NodeName_value REVIEWER)
             (events (snd (process_customer_message fuel customer_message
                             init_world)))))) /\
  (forall state w update w',
     reviewer_node state w = (Ok update, w') ->
     (get (revision_count state) 0 < MAX_REVISIONS ->
      exists request text,
        invoke llm (events w) request = Ok text /\
        In (Invoke request) (events w') /\
        latest_feedback_for_writer update = Some text) /\
     (MAX_REVISIONS <= get (revision_count state) 0 ->
      latest_feedback_for_writer update = latest_feedback_for_writer state /\
      w' = w)).
Proof.
  split.
  - intros fuel customer_message.
    destruct (process_start fuel customer_message)
      as (s0 & w0 & E & Hev & _ & _ & _ & Hf0 & _).
    rewrite E. clear E.
    set (P := fun s : MessageResponseState => latest_feedback_for_writer s = Some "").
    set (rv := NodeName_value REVIEWER).
    pose (I := fun (_ : nat) (_ : string) (s : MessageResponseState)
                   (evs : list Event) =>
      Forall P (checkpoints (before_call rv evs)) /\
      (count_node rv evs = O -> P s)).
    pose (Q := fun (_ : option (Res MessageResponseState)) (evs : list Event) =>
      Forall P (checkpoints (before_call rv evs))).
    change (Q (fst (run_from fuel create_reflection_graph START s0 w0))
              (events (snd (run_from fuel create_reflection_graph START s0 w0)))).
    apply (run_from_invariant create_reflection_graph I Q); unfold I, Q.
    + intros ? ? ? (H & _). exact H.
    + intros ? ? ? (H & _). exact H.
    + intros f s evs H. rewrite next_after_start. exact H.
    + intros f v s w _ _ (Hold & Hs).
      destruct (string_dec v (NodeName_value WRITER)) as [->|HW];
        [|destruct (string_dec v (NodeName_value REVIEWER)) as [->|HR];
          [|destruct (string_dec v (NodeName_value PUBLISHER)) as [->|HP]]].
      * pose proof (run_writer s w) as H.
        destruct (run_node _ _ s w) as [[s'|e] w'].
        -- destruct H as ((request & Hev') & _ & _ & Hf & _).
           rewrite next_after_writer, Hev'. split.
           ++ apply before_call_grows; [exact Hold|]. intros Hz.
              simpl. constructor; [|constructor].
              unfold P. rewrite Hf. apply Hs. exact Hz.
           ++ rewrite count_node_app. intros Hz. unfold P. rewrite Hf.
              apply Hs. lia.
        -- destruct H as (calls & Hev' & Hq). rewrite Hev'.
           apply before_call_grows; [exact Hold|]. intros _.
           apply before_call_checkpoints. cbn [checkpoints].
           rewrite (proj2 (model_calls_only "" calls Hq)). constructor.
      * pose proof (run_reviewer s w) as H.
        destruct (run_node _ _ s w) as [[s'|e] w'].
        -- destruct H as ((calls & Hev' & Hq) & _).
           rewrite next_after_reviewer, Hev'. split.
           ++ apply before_call_grows; [exact Hold|]. intros _.
              simpl. constructor.
           ++ rewrite count_node_app. unfold rv. simpl. intros Hz. lia.
        -- destruct H as (calls & Hev' & Hq). rewrite Hev'.
           apply before_call_grows; [exact Hold|]. intros _.
           simpl. constructor.
      * destruct (run_publisher s w) as (s' & w' & Er & Hev' & _ & _ & Hf & _).
        rewrite Er, next_after_publisher, Hev'. split.
        -- apply before_call_grows; [exact Hold|]. intros Hz.
           simpl. constructor; [|constructor].
           unfold P. rewrite Hf. apply Hs. exact Hz.
        -- rewrite count_node_app. intros Hz. unfold P. rewrite Hf.
           apply Hs. lia.
      * rewrite (run_other v s w HW HR HP). exact Hold.
    + rewrite Hev. simpl. split; [constructor; [exact Hf0|constructor]|].
      intros _. exact Hf0.
  - intros state w update w' E.
    pose proof (reviewer_node_spec state w) as H. rewrite E in H.
    destruct H as (_ & _ & _ & [(Hcap & Hw & Hf & _)
                               |(Hlt & request & text & answer & Hi & _ & Hev & Hf & _)]).
    + split; [lia|]. intros _. auto.
    + split; [|lia]. intros _. exists request, text.
      split; [exact Hi|]. split; [|exact Hf].
      rewrite Hev. apply in_or_app. right. left. reflexivity.
Qed.

(** ** How a run begins *)

Lemma run_node_extends (v : string) (s : MessageResponseState) (w : World) :
  exists more,
    events (snd (run_node create_reflection_graph v s w)) = (events w ++ more)%list.
Proof.
  destruct (string_dec v (NodeName_value WRITER)) as [->|HW];
    [|destruct (string_dec v (NodeName_value REVIEWER)) as [->|HR];
      [|destruct (string_dec v (NodeName_value PUBLISHER)) as [->|HP]]].
  - pose proof (run_writer s w) as H.
    destruct (run_node _ _ s w) as [[s'|e] w']; simpl.
    + destruct H as ((request & Hev) & _). eauto.
    + destruct H as (calls & Hev & _). eauto.
  - pose proof (run_reviewer s w) as H.
    destruct (run_node _ _ s w) as [[s'|e] w']; simpl.
    + destruct H as ((calls & Hev & _) & _). eauto.
    + destruct H as (calls & Hev & _). eauto.
  - destruct (run_publisher s w) as (s' & w' & E & Hev & _).
    rewrite E. simpl. eauto.
  - rewrite (run_other v s w HW HR HP). exists []. simpl.
    symmetry. apply app_nil_r.
Qed.

Lemma run_from_extends (f : nat) (v : string) (s : MessageResponseState)
    (w : World) :
  exists more,
    events (snd (run_from f create_reflection_graph v s w)) = (events w ++ more)%list.
Proof.
  pose (I := fun (_ : nat) (_ : string) (_ : MessageResponseState)
                 (evs : list Event) => exists more, evs = (events w ++ more)%list).
  pose (Q := fun (_ : option (Res MessageResponseState)) (evs : list Event) =>
    exists more, evs = (events w ++ more)%list).
  change (Q (fst (run_from f create_reflection_graph v s w))
            (events (snd (run_from f create_reflection_graph v s w)))).
  apply (run_from_invariant create_reflection_graph I Q); unfold I, Q; auto.
  - intros f0 v0 s0 w0 _ _ (more & Hm).
    destruct (run_node_extends v0 s0 w0) as (more' & Hm').
    destruct (run_node create_reflection_graph v0 s0 w0) as [[s'|e] w'];
      simpl in Hm'; rewrite Hm', Hm, <- app_assoc;
      [destruct (next_vertex create_reflection_graph v0 s')|]; eauto.
  - exists []. symmetry. apply app_nil_r.
Qed.

(** The Writer's step puts its call and its request on the trace, whether
    the model answers or fails. *)
Lemma run_writer_events (s : MessageResponseState) (w : World)
    (entries : list Message) :
  messages s = Some entries ->
  exists request tail,
    events (snd (run_node create_reflection_graph (NodeName_value WRITER) s w)) =
    (events w ++ NodeCalled (NodeName_value WRITER) :: Invoke request :: tail)%list /\
    In (Msg (HumanMessage
               (original_message_text (get (original_customer_message s) ""))
               None)) request.
Proof.
  intros Hm.
  pose proof (run_node_spec create_reflection_graph (NodeName_value WRITER)
                writer_node s w eq_refl) as H.
  cbv zeta in H.
  pose proof (writer_node_request s
                (mkWorld (events w ++ [NodeCalled (NodeName_value WRITER)])
                         (next_id w)) entries Hm) as Hreq.
  cbv zeta in Hreq. cbn [events] in Hreq.
  match type of Hreq with _ = (_ ++ [Invoke ?r])%list => exists r end.
  assert (Hin : forall extra,
    In (Msg (HumanMessage
               (original_message_text (get (original_customer_message s) ""))
               None))
       ((RoleDict "system" writer_instructions :: map Msg entries
         ++ [Msg (HumanMessage
                    (original_message_text (get (original_customer_message s) ""))
                    None)]) ++ extra)%list).
  { intros extra. apply in_or_app. left. right. apply in_or_app. right.
    left. reflexivity. }
  destruct (run_node create_reflection_graph (NodeName_value WRITER) s w)
    as [[s'|e] w'].
  - destruct H as (update & w1 & Ew & _ & Hev). rewrite Ew in Hreq.
    cbn [snd] in Hreq |- *. exists [Checkpoint s'].
    split; [|apply Hin]. rewrite Hev, Hreq, <- !app_assoc. reflexivity.
  - rewrite H in Hreq. cbn [snd] in Hreq |- *. exists [].
    split; [|apply Hin]. rewrite Hreq, <- !app_assoc. reflexivity.
Qed.

(** C7, as the code has it.  No run is turned away because of its original
    message: for every message, the empty one included, the run stores the
    initial state holding that message and then calls the Writer, whose
    request carries the message. *)
Theorem every_message_enters_the_loop (fuel : nat) (customer_message : string) :
  exists s0 request rest,
    events (snd (process_customer_message (S (S fuel)) customer_message init_world)) =
      Checkpoint s0 :: NodeCalled (NodeName_value WRITER) :: Invoke request :: rest /\
    original_customer_message s0 = Some customer_message /\
    In (Msg (HumanMessage (original_message_text customer_message) None)) request.
Proof.
  destruct (process_start (S (S fuel)) customer_message)
    as (s0 & w0 & E & Hev & Hm & _ & Ho & _).
  rewrite E. clear E.
  change (run_from (S (S fuel)) create_reflection_graph START s0 w0)
    with (run_from (S fuel) create_reflection_graph (NodeName_value WRITER) s0 w0).
  destruct (run_writer_events s0 w0 _ Hm) as (request & tail & Hw & Hin).
  rewrite Ho in Hin. cbn [get] in Hin.
  change (run_from (S fuel) create_reflection_graph (NodeName_value WRITER) s0 w0)
    with (match run_node create_reflection_graph (NodeName_value WRITER) s0 w0 with
          | (Raise e, w') => (Some (Raise e), w')
          | (Ok s', w') =>
              run_from fuel create_reflection_graph (NodeName_value REVIEWER) s' w'
          end).
  destruct (run_node create_reflection_graph (NodeName_value WRITER) s0 w0)
    as [[s'|e] w']; cbn [snd] in Hw.
  - destruct (run_from_extends fuel (NodeName_value REVIEWER) s' w') as (more & Hx).
    exists s0, request, (tail ++ more)%list.
    split; [|auto]. rewrite Hx, Hw, Hev. reflexivity.
  - exists s0, request, tail. split; [|auto]. cbn [snd]. rewrite Hw, Hev. reflexivity.
Qed.

(** * Further properties of the nodes *)

(** ** Every way a node call can go *)

(** The Writer: no log, a failing model, or an answer. *)
Lemma writer_node_cases (state : MessageResponseState) (w : World) :
  match messages state with
  | None => writer_node state w = (Raise (KeyError "messages"), w)
  | Some entries =>
      exists request rest,
        request =
          (RoleDict "system" writer_instructions :: map Msg entries
           ++ Msg (HumanMessage
                     (original_message_text (get (original_customer_message state) ""))
                     None) :: rest)%list /\
        match invoke llm (events w) request with
        | Ok text =>
            writer_node state w =
            (Ok (_update_writer_state state text),
             mkWorld (events w ++ [Invoke request]) (next_id w))
        | Raise e =>
            writer_node state w =
            (Raise e, mkWorld (events w ++ [Invoke request]) (next_id w))
        end
  end.
Proof.
  unfold writer_node, _create_writer_messages, state_messages, bind.
  destruct (messages state) as [entries|]; [|reflexivity].
  unfold ret at 1.
  match goal with |- context [truthy ?f] => destruct (truthy f) end;
    unfold ret, llm_invoke;
    match goal with |- context [Invoke ?r] => exists r end.
  - eexists [_]. split; [cbn [app]; rewrite <- app_assoc; reflexivity|].
    match goal with |- context [invoke llm ?h ?r] => destruct (invoke llm h r) end;
      reflexivity.
  - exists []. split; [reflexivity|].
    match goal with |- context [invoke llm ?h ?r] => destruct (invoke llm h r) end;
      reflexivity.
Qed.

(** The Reviewer: at the cap, no log, a failing critique, a failing
    extraction, or a verdict. *)
Lemma reviewer_node_cases (state : MessageResponseState) (w : World) :
  let count := get (revision_count state) 0 in
  (MAX_REVISIONS <= count /\
   exists update, reviewer_node state w = (Ok update, w)) \/
  (count < MAX_REVISIONS /\
   match messages state with
   | None => reviewer_node state w = (Raise (KeyError "messages"), w)
   | Some entries =>
       let request :=
         (RoleDict "system" reviewer_instructions :: map Msg entries
          ++ [Msg (HumanMessage
                     (review_content (get (original_customer_message state) "")
                        (get (latest_message_response_by_writer state) ""))
                     None)])%list in
       match invoke llm (events w) request with
       | Raise e =>
           reviewer_node state w =
           (Raise e, mkWorld (events w ++ [Invoke request]) (next_id w))
       | Ok text =>
           let w2 :=
             mkWorld (events w ++ [Invoke request; StructuredInvoke (decision_prompt text)])
                     (next_id w) in
           match structured_invoke llm (events w ++ [Invoke request])
                   (decision_prompt text) with
           | Raise e => reviewer_node state w = (Raise e, w2)
           | Ok answer =>
               let decision := get answer (Decision_value REVISE) in
               let flag := String.eqb decision (Decision_value REVISE) in
               reviewer_node state w =
               (Ok {| messages := Some
                        [ HumanMessage (str_int count ++ " - feedback for writer: "
                                        ++ text) reviewer_name;
                          HumanMessage (str_int count ++ " - reviewer decision: "
                                        ++ decision) reviewer_name;
                          HumanMessage (str_int count ++ " - continue revision?: "
                                        ++ str_bool flag) reviewer_name ];
                      revision_count := revision_count state;
                      original_customer_message := original_customer_message state;
                      latest_feedback_for_writer := Some text;
                      latest_message_response_by_writer :=
                        latest_message_response_by_writer state;
                      latest_reviewer_decision := Some decision;
                      continue_revision := Some flag |}, w2)
           end
       end
   end).
Proof.
  cbv zeta. unfold reviewer_node.
  destruct (MAX_REVISIONS <=? get (revision_count state) 0) eqn:Ecap.
  - left. apply Z.leb_le in Ecap. split; [exact Ecap|]. eexists. reflexivity.
  - right. apply Z.leb_gt in Ecap. split; [exact Ecap|].
    unfold state_messages. destruct (messages state) as [entries|]; [|reflexivity].
    unfold bind, ret, llm_invoke, llm_structured_invoke. cbv beta iota.
    cbn [events next_id].
    match goal with |- context [invoke llm ?h ?r] => destruct (invoke llm h r) as [text|e] end;
      [|reflexivity].
    rewrite <- app_assoc. cbn [app].
    match goal with |- context [structured_invoke llm ?h ?r] =>
      destruct (structured_invoke llm h r) as [answer|e] end; [|reflexivity].
    apply Z.ltb_lt in Ecap. rewrite Ecap, andb_true_r. reflexivity.
Qed.




(** X4. A review below the cap that returns has asked the model exactly
    twice, in this order: for a critique of the draft (system prompt, the log
    in order, then the original message and the draft), and for the verdict
    in that critique.  The draft, the original message and the counter are
    handed back untouched, and the three log entries are all authored by the
    Reviewer. *)
Theorem reviewer_node_review (state update : MessageResponseState) (w w' : World) :
  get (revision_count state) 0 < MAX_REVISIONS ->
  reviewer_node state w = (Ok update, w') ->
  exists entries text answer new_entries,
    messages state = Some entries /\
    let request :=
      (RoleDict "system" reviewer_instructions :: map Msg entries
       ++ [Msg (HumanMessage
                  (review_content (get (original_customer_message state) "")
                     (get (latest_message_response_by_writer state) ""))
                  None)])%list in
    invoke llm (events w) request = Ok text /\
    structured_invoke llm (events w ++ [Invoke request]) (decision_prompt text)
      = Ok answer /\
    events w' =
      (events w ++ [Invoke request; StructuredInvoke (decision_prompt text)])%list /\
    latest_message_response_by_writer update = latest_message_response_by_writer state /\
    original_customer_message update = original_customer_message state /\
    revision_count update = revision_count state /\
    messages update = Some new_entries /\
    List.length new_entries = 3%nat /\
    Forall (fun m => msg_type m = Human /\
                     msg_name m = Some (NodeName_value REVIEWER) /\
                     msg_id m = None) new_entries.
Proof.
  intros Hlt E. pose proof (reviewer_node_cases state w) as H. cbv zeta in H.
  destruct H as [(Hcap & _)|(_ & H)]; [lia|].
  destruct (messages state) as [entries|]; [|rewrite H in E; discriminate E].
  exists entries. cbv zeta.
  match type of H with context [invoke llm (events w) ?r] =>
    set (request := r) in * end.
  destruct (invoke llm (events w) request) as [text|e0] eqn:Ei;
    [|rewrite H in E; discriminate E].
  destruct (structured_invoke llm (events w ++ [Invoke request])
              (decision_prompt text)) as [answer|e1] eqn:Es;
    rewrite H in E; [|discriminate E].
  injection E as <- <-. exists text, answer. eexists.
  repeat split; try exact Es; repeat constructor.
Qed.

(** * Further properties of the graph and of runs *)

Ltac route :=
  repeat match goal with
         | |- _ /\ _ => split
         | |- _ <-> _ => split; intro
         | |- _ <> _ => intro
         end;
  repeat match goal with
         | H : _ /\ _ |- _ => destruct H
         | H : _ \/ _ |- _ => destruct H
         end;
  try discriminate; try congruence; try contradiction; auto.

(** X5. The routing table of the reflection graph.  [START] leads to the
    Writer and the Writer to the Reviewer; the Reviewer leads to the Writer
    when the continue flag is true and to the Publisher otherwise, so it
    always has a successor; only the Publisher leads to [END]; nothing leads
    back to [START]; and a name that is no vertex of the graph is no node and
    leads nowhere. *)
Theorem reflection_graph_routes (v : string) (s : MessageResponseState) :
  let next := next_vertex create_reflection_graph v s in
  (next = Some (NodeName_value WRITER) <->
   v = START \/ (v = NodeName_value REVIEWER /\ continue_revision s = Some true)) /\
  (next = Some (NodeName_value REVIEWER) <-> v = NodeName_value WRITER) /\
  (next = Some (NodeName_value PUBLISHER) <->
   v = NodeName_value REVIEWER /\ continue_revision s <> Some true) /\
  (next = Some END <-> v = NodeName_value PUBLISHER) /\
  next <> Some START /\
  (next = None <->
   v <> START /\ v <> NodeName_value WRITER /\ v <> NodeName_value REVIEWER /\
   v <> NodeName_value PUBLISHER) /\
  (assoc v (nodes create_reflection_graph) = None <->
   v <> NodeName_value WRITER /\ v <> NodeName_value REVIEWER /\
   v <> NodeName_value PUBLISHER).
Proof.
  cbv zeta.
  destruct (string_dec v START) as [->|HS];
    [rewrite next_after_start
    |destruct (string_dec v (NodeName_value WRITER)) as [->|HW];
     [rewrite next_after_writer
     |destruct (string_dec v (NodeName_value REVIEWER)) as [->|HR];
      [rewrite next_after_reviewer;
       destruct (should_continue_cases s) as [(Hc & ->)|(Hc & ->)]
      |destruct (string_dec v (NodeName_value PUBLISHER)) as [->|HP];
       [rewrite next_after_publisher|]]]].
  6:{ assert (Hnone : next_vertex create_reflection_graph v s = None).
      { unfold next_vertex. apply String.eqb_neq in HS, HW, HR, HP. simpl in *.
        rewrite HS, HW, HP, HR. reflexivity. }
      assert (Hnode : assoc v (nodes create_reflection_graph) = None).
      { apply String.eqb_neq in HW, HR, HP. simpl in *.
        rewrite HW, HR, HP. reflexivity. }
      rewrite Hnone, Hnode. route. }
  all: simpl; route.
Qed.

(** ** The steps of a run, event by event *)

Lemma run_node_ok (g : StateGraph) (v : string)
    (action : MessageResponseState -> M MessageResponseState)
    (s u : MessageResponseState) (w w1 : World) :
  assoc v (nodes g) = Some action ->
  action s (mkWorld (events w ++ [NodeCalled v]) (next_id w)) = (Ok u, w1) ->
  exists s' n entries,
    run_node g v s w = (Ok s', mkWorld (events w1 ++ [Checkpoint s']) n) /\
    messages s' = Some entries /\ merged s u s'.
Proof.
  intros Ha E. rewrite (run_node_unfold g v action s w Ha), E.
  destruct (apply_update_spec s u w1) as (entries & n & Eu). rewrite Eu.
  cbn [events next_id]. do 3 eexists. split; [reflexivity|].
  split; [reflexivity|]. unfold merged. cbn. repeat split.
Qed.

Lemma run_node_raise (g : StateGraph) (v : string)
    (action : MessageResponseState -> M MessageResponseState)
    (s : MessageResponseState) (w w1 : World) (e : Exc) :
  assoc v (nodes g) = Some action ->
  action s (mkWorld (events w ++ [NodeCalled v]) (next_id w)) = (Raise e, w1) ->
  run_node g v s w = (Raise e, w1).
Proof.
  intros Ha E. rewrite (run_node_unfold g v action s w Ha), E. reflexivity.
Qed.

Lemma step_writer (s : MessageResponseState) (w : World) (entries : list Message) :
  messages s = Some entries ->
  exists request,
    match invoke llm (events w ++ [NodeCalled (NodeName_value WRITER)]) request with
    | Ok text =>
        exists s' n entries',
          run_node create_reflection_graph (NodeName_value WRITER) s w =
          (Ok s',
           mkWorld (events w ++ [NodeCalled (NodeName_value WRITER); Invoke request;
                                 Checkpoint s']) n) /\
          messages s' = Some entries' /\
          revision_count s' = Some (get (revision_count s) 0 + 1) /\
          original_customer_message s' = original_customer_message s /\
          latest_feedback_for_writer s' = latest_feedback_for_writer s /\
          latest_message_response_by_writer s' = Some text /\
          latest_reviewer_decision s' = latest_reviewer_decision s /\
          continue_revision s' = continue_revision s
    | Raise e =>
        run_node create_reflection_graph (NodeName_value WRITER) s w =
        (Raise e,
         mkWorld (events w ++ [NodeCalled (NodeName_value WRITER); Invoke request])
                 (next_id w))
    end.
Proof.
  intros Hm.
  set (w0 := mkWorld (events w ++ [NodeCalled (NodeName_value WRITER)]) (next_id w)).
  pose proof (writer_node_cases s w0) as H. rewrite Hm in H.
  destruct H as (request & rest & _ & H). exists request.
  change (events w0) with (events w ++ [NodeCalled (NodeName_value WRITER)])%list in H.
  destruct (invoke llm (events w ++ [NodeCalled (NodeName_value WRITER)]) request)
    as [text|e].
  - destruct (run_node_ok create_reflection_graph (NodeName_value WRITER)
                writer_node s _ w _ eq_refl H)
      as (s' & n & entries' & Er & Hm' & (Hrc & Ho & Hf & Hd & Hv & Hc)).
    cbn [events] in Er. rewrite <- !app_assoc in Er. cbn [app] in Er.
    cbn in Hrc, Ho, Hf, Hd, Hv, Hc.
    rewrite last_value_same in Ho. rewrite last_value_same in Hf.
    rewrite last_value_same in Hv. rewrite last_value_same in Hc.
    exists s', n, entries'. repeat split; assumption.
  - rewrite (run_node_raise create_reflection_graph (NodeName_value WRITER)
               writer_node s w _ e eq_refl H).
    cbn [next_id]. rewrite <- app_assoc. reflexivity.
Qed.

Lemma step_reviewer (s : MessageResponseState) (w : World) (entries : list Message) :
  messages s = Some entries ->
  let called := (events w ++ [NodeCalled (NodeName_value REVIEWER)])%list in
  (MAX_REVISIONS <= get (revision_count s) 0 /\
   exists s' n entries',
     run_node create_reflection_graph (NodeName_value REVIEWER) s w =
     (Ok s', mkWorld (called ++ [Checkpoint s']) n) /\
     messages s' = Some entries' /\
     revision_count s' = revision_count s /\
     original_customer_message s' = original_customer_message s /\
     latest_feedback_for_writer s' = latest_feedback_for_writer s /\
     latest_message_response_by_writer s' = latest_message_response_by_writer s /\
     latest_reviewer_decision s' = Some (Decision_value APPROVE) /\
     continue_revision s' = Some false) \/
  (get (revision_count s) 0 < MAX_REVISIONS /\
   exists request,
     match invoke llm called request with
     | Raise e =>
         run_node create_reflection_graph (NodeName_value REVIEWER) s w =
         (Raise e, mkWorld (called ++ [Invoke request]) (next_id w))
     | Ok text =>
         let prompt := decision_prompt text in
         match structured_invoke llm (called ++ [Invoke request]) prompt with
         | Raise e =>
             run_node create_reflection_graph (NodeName_value REVIEWER) s w =
             (Raise e,
              mkWorld (called ++ [Invoke request; StructuredInvoke prompt]) (next_id w))
         | Ok answer =>
             exists s' n entries',
               run_node create_reflection_graph (NodeName_value REVIEWER) s w =
               (Ok s',
                mkWorld (called ++ [Invoke request; StructuredInvoke prompt;
                                    Checkpoint s']) n) /\
               messages s' = Some entries' /\
               revision_count s' = revision_count s /\
               original_customer_message s' = original_customer_message s /\
               latest_feedback_for_writer s' = Some text /\
               latest_message_response_by_writer s' = latest_message_response_by_writer s /\
               latest_reviewer_decision s' = Some (get answer (Decision_value REVISE)) /\
               continue_revision s' =
                 Some (String.eqb (get answer (Decision_value REVISE))
                                  (Decision_value REVISE))
         end
     end).
Proof.
  intros Hm. cbv zeta.
  set (w0 := mkWorld (events w ++ [NodeCalled (NodeName_value REVIEWER)]) (next_id w)).
  pose proof (reviewer_node_cases s w0) as H. cbv zeta in H. rewrite Hm in H.
  change (events w0) with (events w ++ [NodeCalled (NodeName_value REVIEWER)])%list in H.
  change (next_id w0) with (next_id w) in H.
  destruct H as [(Hcap & update & E)|(Hlt & H)].
  - left. split; [exact Hcap|].
    pose proof (reviewer_node_spec s w0) as Hs. rewrite E in Hs.
    destruct Hs as (Urc & Uo & Uv & [(_ & _ & Uf & Ud & Uc)|(Hlt & _)]); [|lia].
    destruct (run_node_ok create_reflection_graph (NodeName_value REVIEWER)
                reviewer_node s _ w _ eq_refl E)
      as (s' & n & entries' & Er & Hm' & (Hrc & Ho & Hf & Hv & Hd & Hc)).
    rewrite Urc, last_value_same in Hrc. rewrite Uo, last_value_same in Ho.
    rewrite Uf, last_value_same in Hf. rewrite Uv, last_value_same in Hv.
    rewrite Ud in Hd. rewrite Uc in Hc. cbn in Hd, Hc.
    exists s', n, entries'. repeat split; assumption.
  - right. split; [exact Hlt|].
    match type of H with context [invoke llm _ ?r] => exists r; set (request := r) in * end.
    destruct (invoke llm (events w ++ [NodeCalled (NodeName_value REVIEWER)]) request)
      as [text|e].
    + cbv zeta.
      destruct (structured_invoke llm
                  ((events w ++ [NodeCalled (NodeName_value REVIEWER)]) ++ [Invoke request])
                  (decision_prompt text)) as [answer|e].
      * destruct (run_node_ok create_reflection_graph (NodeName_value REVIEWER)
                    reviewer_node s _ w _ eq_refl H)
          as (s' & n & entries' & Er & Hm' & (Hrc & Ho & Hf & Hv & Hd & Hc)).
        cbn [events] in Er. rewrite <- !app_assoc in Er. cbn [app] in Er.
        cbn in Hrc, Ho, Hf, Hv, Hd, Hc.
        rewrite last_value_same in Hrc. rewrite last_value_same in Ho.
        rewrite last_value_same in Hv.
        exists s', n, entries'. rewrite <- !app_assoc. cbn [app].
        repeat split; assumption.
      * apply (run_node_raise create_reflection_graph (NodeName_value REVIEWER)
                 reviewer_node s w _ e eq_refl H).
    + apply (run_node_raise create_reflection_graph (NodeName_value REVIEWER)
               reviewer_node s w _ e eq_refl H).
Qed.

Lemma step_publisher (s : MessageResponseState) (w : World) :
  exists s' n entries',
    run_node create_reflection_graph (NodeName_value PUBLISHER) s w =
    (Ok s',
     mkWorld (events w ++ [NodeCalled (NodeName_value PUBLISHER); Checkpoint s']) n) /\
    messages s' = Some entries' /\
    revision_count s' = revision_count s /\
    original_customer_message s' = original_customer_message s /\
    latest_feedback_for_writer s' = latest_feedback_for_writer s /\
    latest_message_response_by_writer s' = latest_message_response_by_writer s /\
    latest_reviewer_decision s' = latest_reviewer_decision s /\
    continue_revision s' = continue_revision s.
Proof.
  destruct (run_node_ok create_reflection_graph (NodeName_value PUBLISHER)
              publisher_node s _ w _ eq_refl eq_refl)
    as (s' & n & entries' & Er & Hm' & (Hrc & Ho & Hf & Hv & Hd & Hc)).
  cbn [events] in Er. rewrite <- app_assoc in Er. cbn [app] in Er.
  cbn in Hrc, Ho, Hf, Hv, Hd, Hc.
  rewrite last_value_same in Hrc. rewrite last_value_same in Ho.
  rewrite last_value_same in Hf. rewrite last_value_same in Hv.
  rewrite last_value_same in Hd. rewrite last_value_same in Hc.
  exists s', n, entries'. repeat split; assumption.
Qed.

(** ** Tallies and stored states of a whole run *)

Lemma tally (evs tail : list Event) (a b c d : nat) :
  writer_calls tail = a -> reviewer_calls tail = b ->
  publisher_calls tail = c -> requests tail = d ->
  writer_calls (evs ++ tail) = (writer_calls evs + a)%nat /\
  reviewer_calls (evs ++ tail) = (reviewer_calls evs + b)%nat /\
  publisher_calls (evs ++ tail) = (publisher_calls evs + c)%nat /\
  requests (evs ++ tail) = (requests evs + d)%nat.
Proof.
  intros <- <- <- <-.
  unfold writer_calls, reviewer_calls, publisher_calls, requests, model_calls.
  rewrite !count_node_app, filter_app, length_app. repeat split.
Qed.

Lemma process_start_full (fuel : nat) (customer_message : string) :
  exists s0 w0,
    process_customer_message fuel customer_message init_world =
      run_from fuel create_reflection_graph START s0 w0 /\
    events w0 = [Checkpoint s0] /\
    messages s0 = Some [with_id (HumanMessage customer_message None) 0] /\
    revision_count s0 = Some 0 /\
    original_customer_message s0 = Some customer_message /\
    latest_feedback_for_writer s0 = Some "" /\
    latest_message_response_by_writer s0 = Some "" /\
    latest_reviewer_decision s0 = Some (Decision_value REVISE) /\
    continue_revision s0 = Some true.
Proof.
  do 2 eexists. split; [reflexivity|]. simpl. repeat split.
Qed.

Lemma run_counts (fuel : nat) (customer_message : string) :
  let run := process_customer_message fuel customer_message init_world in
  let evs := events (snd run) in
  (reviewer_calls evs <= writer_calls evs <= reviewer_calls evs + 1)%nat /\
  (publisher_calls evs <= 1)%nat /\
  Z.of_nat (writer_calls evs) <= Z.max 1 MAX_REVISIONS /\
  (requests evs <= writer_calls evs + 2 * reviewer_calls evs)%nat /\
  Z.of_nat (requests evs) <= 3 * Z.max 1 MAX_REVISIONS - 2 /\
  (MAX_REVISIONS <= 1 -> requests evs = writer_calls evs) /\
  (forall e, fst run = Some (Raise e) -> publisher_calls evs = 0%nat) /\
  (forall final, fst run = Some (Ok final) ->
     publisher_calls evs = 1%nat /\
     reviewer_calls evs = writer_calls evs /\
     (1 <= writer_calls evs)%nat /\
     revision_count final = Some (Z.of_nat (writer_calls evs)) /\
     continue_revision final = Some false /\
     (exists d, latest_reviewer_decision final = Some d /\
                d <> Decision_value REVISE) /\
     (MAX_REVISIONS <= 1 ->
      latest_reviewer_decision final = Some (Decision_value APPROVE) /\
      latest_feedback_for_writer final = Some "")).
Proof.
  intros run evs. subst evs run.
  destruct (process_start_full fuel customer_message)
    as (s0 & w0 & E & Hev & Hm0 & Hrc0 & _ & Hf0 & _).
  rewrite E. clear E.
  pose (fin := fun s : MessageResponseState =>
    continue_revision s = Some false /\
    (exists d, latest_reviewer_decision s = Some d /\ d <> Decision_value REVISE) /\
    (MAX_REVISIONS <= 1 ->
     latest_reviewer_decision s = Some (Decision_value APPROVE))).
  pose (I := fun (f : nat) (v : string) (s : MessageResponseState) (evs : list Event) =>
    (exists entries, messages s = Some entries) /\
    revision_count s = Some (Z.of_nat (writer_calls evs)) /\
    (requests evs <= writer_calls evs + 2 * reviewer_calls evs)%nat /\
    (MAX_REVISIONS <= 1 ->
     requests evs = writer_calls evs /\ latest_feedback_for_writer s = Some "") /\
    ((v = START /\ writer_calls evs = 0%nat /\ reviewer_calls evs = 0%nat /\
      publisher_calls evs = 0%nat /\ requests evs = 0%nat) \/
     (v = NodeName_value WRITER /\ reviewer_calls evs = writer_calls evs /\
      publisher_calls evs = 0%nat /\
      (writer_calls evs = 0%nat \/ Z.of_nat (writer_calls evs) < MAX_REVISIONS) /\
      Z.of_nat (requests evs) <= 3 * Z.of_nat (writer_calls evs)) \/
     (v = NodeName_value REVIEWER /\ writer_calls evs = S (reviewer_calls evs) /\
      publisher_calls evs = 0%nat /\
      Z.of_nat (writer_calls evs) <= Z.max 1 MAX_REVISIONS /\
      Z.of_nat (requests evs) <= 3 * Z.of_nat (writer_calls evs) - 2) \/
     (v = NodeName_value PUBLISHER /\ reviewer_calls evs = writer_calls evs /\
      publisher_calls evs = 0%nat /\ (1 <= writer_calls evs)%nat /\
      Z.of_nat (writer_calls evs) <= Z.max 1 MAX_REVISIONS /\
      Z.of_nat (requests evs) <= 3 * Z.max 1 MAX_REVISIONS - 2 /\ fin s) \/
     (v = END /\ reviewer_calls evs = writer_calls evs /\
      publisher_calls evs = 1%nat /\ (1 <= writer_calls evs)%nat /\
      Z.of_nat (writer_calls evs) <= Z.max 1 MAX_REVISIONS /\
      Z.of_nat (requests evs) <= 3 * Z.max 1 MAX_REVISIONS - 2 /\ fin s))).
  pose (Q := fun (r : option (Res MessageResponseState)) (evs : list Event) =>
    (reviewer_calls evs <= writer_calls evs <= reviewer_calls evs + 1)%nat /\
    (publisher_calls evs <= 1)%nat /\
    Z.of_nat (writer_calls evs) <= Z.max 1 MAX_REVISIONS /\
    (requests evs <= writer_calls evs + 2 * reviewer_calls evs)%nat /\
    Z.of_nat (requests evs) <= 3 * Z.max 1 MAX_REVISIONS - 2 /\
    (MAX_REVISIONS <= 1 -> requests evs = writer_calls evs) /\
    (forall e, r = Some (Raise e) -> publisher_calls evs = 0%nat) /\
    (forall final, r = Some (Ok final) ->
       publisher_calls evs = 1%nat /\
       reviewer_calls evs = writer_calls evs /\
       (1 <= writer_calls evs)%nat /\
       revision_count final = Some (Z.of_nat (writer_calls evs)) /\
       continue_revision final = Some false /\
       (exists d, latest_reviewer_decision final = Some d /\
                  d <> Decision_value REVISE) /\
       (MAX_REVISIONS <= 1 ->
        latest_reviewer_decision final = Some (Decision_value APPROVE) /\
        latest_feedback_for_writer final = Some ""))).
  change (Q (fst (run_from fuel create_reflection_graph START s0 w0))
            (events (snd (run_from fuel create_reflection_graph START s0 w0)))).
  apply (run_from_invariant create_reflection_graph I Q).
  - (* the budget is used up *)
    intros v s evs (_ & _ & Hq & Hone & Hv). unfold Q.
    assert (Hr : MAX_REVISIONS <= 1 -> requests evs = writer_calls evs)
      by (intros H1; apply (Hone H1)).
    decompose [and or] Hv; clear Hv.
    all: do 5 (split; [lia|]); (split; [exact Hr|]); split; discriminate.
  - (* at END *)
    intros f s evs (_ & Hrc & Hq & Hone & Hv). unfold Q.
    assert (Hr : MAX_REVISIONS <= 1 -> requests evs = writer_calls evs)
      by (intros H1; apply (Hone H1)).
    destruct Hv as [(Hv & _)|[(Hv & _)|[(Hv & _)|[(Hv & _)
                   |(_ & HR & HP & H1 & Hb & Hz & Hc & Hd & Ha)]]]]; try discriminate Hv.
    do 5 (split; [lia|]). split; [exact Hr|]. split; [discriminate|].
    intros final Ef. injection Ef as <-.
    repeat (split; [assumption|]).
    intros Hm. split; [exact (Ha Hm)|apply (Hone Hm)].
  - (* at START *)
    intros f s evs (Hm & Hrc & Hq & Hone & Hv). rewrite next_after_start.
    destruct Hv as [(_ & HW & HR & HP & Hz)|[(Hv & _)|[(Hv & _)|[(Hv & _)|(Hv & _)]]]];
      try discriminate Hv.
    repeat (split; [assumption|]).
    right. left. split; [reflexivity|]. split; [lia|]. split; [lia|].
    split; [left; lia|lia].
  - (* at a node *)
    intros f v s w Hns Hne ((entries & Hm) & Hrc & Hq & Hone & Hv).
    destruct Hv as [(Hv & _)|[(Hv & HR & HP & Hb & Hz)|[(Hv & HW & HP & Hb & Hz)
                   |[(Hv & HR & HP & H1 & Hb & Hz & Hfin)|(Hv & _)]]]];
      try contradiction; subst v.
    + (* the Writer *)
      destruct (step_writer s w entries Hm) as (request & Hw).
      destruct (invoke llm (events w ++ [NodeCalled (NodeName_value WRITER)]) request)
        as [text|e].
      * destruct Hw as (s' & n & entries' & Er & Hm' & Hrc' & _ & Hf' & _).
        rewrite Er, next_after_writer. cbn [events].
        destruct (tally (events w)
                    [NodeCalled (NodeName_value WRITER); Invoke request; Checkpoint s']
                    1 0 0 1 eq_refl eq_refl eq_refl eq_refl) as (TW & TR & TP & TM).
        rewrite Hrc in Hrc'. cbn [get] in Hrc'.
        split; [exists entries'; exact Hm'|].
        split; [rewrite Hrc', TW; f_equal; lia|].
        split; [lia|].
        split; [intros H1; destruct (Hone H1) as (Hq1 & Hf1); split;
                [lia|rewrite Hf'; exact Hf1]|].
        right. right. left. split; [reflexivity|]. repeat split; lia.
      * rewrite Hw. cbn [events].
        destruct (tally (events w)
                    [NodeCalled (NodeName_value WRITER); Invoke request]
                    1 0 0 1 eq_refl eq_refl eq_refl eq_refl) as (TW & TR & TP & TM).
        unfold Q. do 5 (split; [lia|]).
        split; [intros H1; destruct (Hone H1) as (Hq1 & Hf1); lia|].
        split; [intros; lia|discriminate].
    + (* the Reviewer *)
      destruct (step_reviewer s w entries Hm) as
        [(Hcap & s' & n & entries' & Er & Hm' & Hrc' & _ & Hf' & _ & Hd' & Hc')
        |(Hlt & request & Hr)]; cbv zeta in *.
      * rewrite Hrc in Hcap. cbn [get] in Hcap.
        rewrite Er, next_after_reviewer. cbn [events]. rewrite <- app_assoc. cbn [app].
        destruct (tally (events w)
                    [NodeCalled (NodeName_value REVIEWER); Checkpoint s']
                    0 1 0 0 eq_refl eq_refl eq_refl eq_refl) as (TW & TR & TP & TM).
        destruct (should_continue_cases s') as [(Ht & ->)|(Ht & ->)]; [congruence|].
        split; [exists entries'; exact Hm'|].
        split; [rewrite Hrc', Hrc, TW; f_equal; lia|].
        split; [lia|].
        split; [intros H1; destruct (Hone H1) as (Hq1 & Hf1); split;
                [lia|rewrite Hf'; exact Hf1]|].
        right. right. right. left. split; [reflexivity|].
        do 5 (split; [lia|]).
        split; [exact Hc'|]. split; [|intros _; exact Hd'].
        exists (Decision_value APPROVE). split; [exact Hd'|discriminate].
      * rewrite Hrc in Hlt. cbn [get] in Hlt.
        destruct (invoke llm (events w ++ [NodeCalled (NodeName_value REVIEWER)]) request)
          as [text|e].
        -- destruct (structured_invoke llm
                       ((events w ++ [NodeCalled (NodeName_value REVIEWER)])
                        ++ [Invoke request]) (decision_prompt text)) as [answer|e].
           ++ destruct Hr as (s' & n & entries' & Er & Hm' & Hrc' & _ & Hf' & _ & Hd' & Hc').
              rewrite Er, next_after_reviewer. cbn [events].
              rewrite <- app_assoc. cbn [app].
              destruct (tally (events w)
                          [NodeCalled (NodeName_value REVIEWER); Invoke request;
                           StructuredInvoke (decision_prompt text); Checkpoint s']
                          0 1 0 2 eq_refl eq_refl eq_refl eq_refl) as (TW & TR & TP & TM).
              destruct (should_continue_cases s') as [(Ht & ->)|(Ht & ->)].
              ** split; [exists entries'; exact Hm'|].
                 split; [rewrite Hrc', Hrc, TW; f_equal; lia|].
                 split; [lia|].
                 split; [intros H1; exfalso; lia|].
                 right. left. split; [reflexivity|]. repeat split; try lia.
              ** split; [exists entries'; exact Hm'|].
                 split; [rewrite Hrc', Hrc, TW; f_equal; lia|].
                 split; [lia|].
                 split; [intros H1; exfalso; lia|].
                 right. right. right. left. split; [reflexivity|].
                 do 5 (split; [lia|]).
                 destruct (String.eqb (get answer (Decision_value REVISE))
                                      (Decision_value REVISE)) eqn:Eq;
                   [congruence|].
                 apply String.eqb_neq in Eq.
                 split; [exact Hc'|]. split; [|intros H1; exfalso; lia].
                 exists (get answer (Decision_value REVISE)). split; assumption.
           ++ rewrite Hr. cbn [events]. rewrite <- app_assoc. cbn [app].
              destruct (tally (events w)
                          [NodeCalled (NodeName_value REVIEWER); Invoke request;
                           StructuredInvoke (decision_prompt text)]
                          0 1 0 2 eq_refl eq_refl eq_refl eq_refl) as (TW & TR & TP & TM).
              unfold Q. do 5 (split; [lia|]).
              split; [intros H1; exfalso; lia|].
              split; [intros; lia|discriminate].
        -- rewrite Hr. cbn [events]. rewrite <- app_assoc. cbn [app].
           destruct (tally (events w)
                       [NodeCalled (NodeName_value REVIEWER); Invoke request]
                       0 1 0 1 eq_refl eq_refl eq_refl eq_refl) as (TW & TR & TP & TM).
           unfold Q. do 5 (split; [lia|]).
           split; [intros H1; exfalso; lia|].
           split; [intros; lia|discriminate].
    + (* the Publisher *)
      destruct (step_publisher s w)
        as (s' & n & entries' & Er & Hm' & Hrc' & _ & Hf' & _ & Hd' & Hc').
      rewrite Er, next_after_publisher. cbn [events].
      destruct (tally (events w)
                  [NodeCalled (NodeName_value PUBLISHER); Checkpoint s']
                  0 0 1 0 eq_refl eq_refl eq_refl eq_refl) as (TW & TR & TP & TM).
      split; [exists entries'; exact Hm'|].
      split; [rewrite Hrc', Hrc, TW; f_equal; lia|].
      split; [lia|].
      split; [intros Hm1; destruct (Hone Hm1) as (Hq1 & Hf1); split;
              [lia|rewrite Hf'; exact Hf1]|].
      right. right. right. right. split; [reflexivity|].
      do 5 (split; [lia|]).
      unfold fin in *. rewrite Hd', Hc'. exact Hfin.
  - (* the start of the run *)
    rewrite Hev.
    split; [eexists; exact Hm0|]. split; [exact Hrc0|].
    split; [cbv; lia|]. split; [intros _; split; [reflexivity|exact Hf0]|].
    left. repeat split.
Qed.

Lemma run_states (fuel : nat) (customer_message : string) :
  let run := process_customer_message fuel customer_message init_world in
  let evs := events (snd run) in
  Forall (fun s => all_keys_present s /\
                   original_customer_message s = Some customer_message)
         (checkpoints evs) /\
  (forall final, fst run = Some (Ok final) ->
     exists before, evs = (before ++ [Checkpoint final])%list) /\
  (forall e, fst run = Some (Raise e) ->
     exists before call, evs = (before ++ [call])%list /\ model_failed before call e).
Proof.
  intros run evs. subst evs run.
  destruct (process_start_full fuel customer_message)
    as (s0 & w0 & E & Hev & Hm0 & Hrc0 & Ho0 & Hf0 & Hv0 & Hd0 & Hc0).
  rewrite E. clear E.
  pose (P := fun s : MessageResponseState =>
    all_keys_present s /\ original_customer_message s = Some customer_message).
  pose (I := fun (f : nat) (v : string) (s : MessageResponseState) (evs : list Event) =>
    P s /\ (exists before, evs = (before ++ [Checkpoint s])%list) /\
    Forall P (checkpoints evs) /\
    (v = START \/ v = NodeName_value WRITER \/ v = NodeName_value REVIEWER \/
     v = NodeName_value PUBLISHER \/ v = END)).
  pose (Q := fun (r : option (Res MessageResponseState)) (evs : list Event) =>
    Forall P (checkpoints evs) /\
    (forall final, r = Some (Ok final) ->
       exists before, evs = (before ++ [Checkpoint final])%list) /\
    (forall e, r = Some (Raise e) ->
       exists before call,
         evs = (before ++ [call])%list /\ model_failed before call e)).
  change (Q (fst (run_from fuel create_reflection_graph START s0 w0))
            (events (snd (run_from fuel create_reflection_graph START s0 w0)))).
  assert (Hkeep : forall s s' entries',
            P s -> messages s' = Some entries' ->
            revision_count s' <> None ->
            original_customer_message s' = original_customer_message s ->
            latest_feedback_for_writer s' <> None ->
            latest_message_response_by_writer s' <> None ->
            latest_reviewer_decision s' <> None ->
            continue_revision s' <> None -> P s').
  { intros s s' entries' ((_ & _ & Ko & _) & Ho) Hm Hrc Ho' Hf Hv Hd Hc.
    split; [|congruence]. unfold all_keys_present. repeat split; congruence. }
  apply (run_from_invariant create_reflection_graph I Q).
  - intros v s evs (_ & _ & Hall & _). unfold Q. split; [exact Hall|]. split; discriminate.
  - intros f s evs (_ & Hlast & Hall & _). unfold Q. split; [exact Hall|].
    split; [|discriminate]. intros final Ef. injection Ef as <-. exact Hlast.
  - intros f s evs (Hp & Hlast & Hall & _). rewrite next_after_start.
    repeat (split; [assumption|]). right. left. reflexivity.
  - intros f v s w Hns Hne (Hp & _ & Hall & Hv).
    pose proof Hp as ((Km & Krc & Ko & Kf & Kv & Kd & Kc) & Ho).
    destruct (messages s) as [entries|] eqn:Hm; [clear Km|contradiction].
    destruct Hv as [Hv|[Hv|[Hv|[Hv|Hv]]]]; try contradiction; subst v.
    + (* the Writer *)
      destruct (step_writer s w entries Hm) as (request & Hw).
      destruct (invoke llm (events w ++ [NodeCalled (NodeName_value WRITER)]) request)
        as [text|e] eqn:Ei.
      * destruct Hw as (s' & n & entries' & Er & Hm' & Hrc' & Ho' & Hf' & Hv' & Hd' & Hc').
        rewrite Er, next_after_writer. cbn [events].
        assert (Hp' : P s').
        { apply (Hkeep s s' entries'); try congruence. }
        split; [exact Hp'|]. split; [|split].
        -- exists (events w ++ [NodeCalled (NodeName_value WRITER); Invoke request])%list.
           rewrite <- app_assoc. reflexivity.
        -- rewrite checkpoints_app. apply Forall_app. split; [exact Hall|].
           repeat constructor; apply Hp'.
        -- right. right. left. reflexivity.
      * rewrite Hw. cbn [events]. unfold Q. split; [|split; [discriminate|]].
        -- rewrite checkpoints_app, app_nil_r. exact Hall.
        -- intros e' Ee. injection Ee as <-.
           exists (events w ++ [NodeCalled (NodeName_value WRITER)])%list, (Invoke request).
           split; [rewrite <- app_assoc; reflexivity|exact Ei].
    + (* the Reviewer *)
      destruct (step_reviewer s w entries Hm) as
        [(Hcap & s' & n & entries' & Er & Hm' & Hrc' & Ho' & Hf' & Hv' & Hd' & Hc')
        |(Hlt & request & Hr)]; cbv zeta in *.
      * rewrite Er, next_after_reviewer. cbn [events].
        assert (Hp' : P s').
        { apply (Hkeep s s' entries'); try congruence. }
        split; [exact Hp'|]. split; [eexists; reflexivity|]. split.
        -- rewrite !checkpoints_app, app_nil_r. apply Forall_app. split; [exact Hall|].
           repeat constructor; apply Hp'.
        -- destruct (should_continue_cases s') as [(_ & ->)|(_ & ->)]; auto.
      * destruct (invoke llm (events w ++ [NodeCalled (NodeName_value REVIEWER)]) request)
          as [text|e] eqn:Ei.
        -- destruct (structured_invoke llm
                       ((events w ++ [NodeCalled (NodeName_value REVIEWER)])
                        ++ [Invoke request]) (decision_prompt text)) as [answer|e] eqn:Es.
           ++ destruct Hr as (s' & n & entries' & Er & Hm' & Hrc' & Ho' & Hf' & Hv' & Hd' & Hc').
              rewrite Er, next_after_reviewer. cbn [events].
              assert (Hp' : P s').
              { apply (Hkeep s s' entries'); try congruence. }
              split; [exact Hp'|]. split; [|split].
              ** exists ((events w ++ [NodeCalled (NodeName_value REVIEWER)])
                         ++ [Invoke request; StructuredInvoke (decision_prompt text)])%list.
                 rewrite <- (app_assoc _ _ [Checkpoint s']). reflexivity.
              ** rewrite !checkpoints_app, app_nil_r. apply Forall_app.
                 split; [exact Hall|]. repeat constructor; apply Hp'.
              ** destruct (should_continue_cases s') as [(_ & ->)|(_ & ->)]; auto.
           ++ rewrite Hr. cbn [events]. unfold Q. split; [|split; [discriminate|]].
              ** rewrite !checkpoints_app, !app_nil_r. exact Hall.
              ** intros e' Ee. injection Ee as <-.
                 exists ((events w ++ [NodeCalled (NodeName_value REVIEWER)])
                         ++ [Invoke request])%list,
                        (StructuredInvoke (decision_prompt text)).
                 split; [rewrite <- (app_assoc _ [Invoke request]); reflexivity|exact Es].
        -- rewrite Hr. cbn [events]. unfold Q. split; [|split; [discriminate|]].
           ++ rewrite !checkpoints_app, !app_nil_r. exact Hall.
           ++ intros e' Ee. injection Ee as <-.
              exists (events w ++ [NodeCalled (NodeName_value REVIEWER)])%list,
                     (Invoke request).
              split; [reflexivity|exact Ei].
    + (* the Publisher *)
      destruct (step_publisher s w)
        as (s' & n & entries' & Er & Hm' & Hrc' & Ho' & Hf' & Hv' & Hd' & Hc').
      rewrite Er, next_after_publisher. cbn [events].
      assert (Hp' : P s').
      { apply (Hkeep s s' entries'); try congruence. }
      split; [exact Hp'|]. split; [|split].
      * exists (events w ++ [NodeCalled (NodeName_value PUBLISHER)])%list.
        rewrite <- app_assoc. reflexivity.
      * rewrite checkpoints_app. apply Forall_app. split; [exact Hall|].
        repeat constructor; apply Hp'.
      * right. right. right. right. reflexivity.
  - (* the start of the run *)
    assert (Hp0 : P s0).
    { split; [|exact Ho0]. unfold all_keys_present. repeat split; congruence. }
    split; [exact Hp0|]. split; [exists []; exact Hev|]. split; [|left; reflexivity].
    rewrite Hev. repeat constructor; apply Hp0.
Qed.


(** X7. What a run can cost.  For any cap, negative ones included, the
    Writer is called at most [max 1 MAX_REVISIONS] times.  Each Writer call
    sends at most one request to the model and each review at most two, and
    the review at the cap sends none, so a run sends at most
    [3 * max 1 MAX_REVISIONS - 2] requests in all. *)
Theorem run_request_budget (fuel : nat) (customer_message : string) :
  let run := process_customer_message fuel customer_message init_world in
  let evs := events (snd run) in
  Z.of_nat (writer_calls evs) <= Z.max 1 MAX_REVISIONS /\
  (requests evs <= writer_calls evs + 2 * reviewer_calls evs)%nat /\
  Z.of_nat (requests evs) <= 3 * Z.max 1 MAX_REVISIONS - 2.
Proof.
  intros run evs.
  destruct (run_counts fuel customer_message)
    as (_ & _ & Hw & Hq & Hz & _).
  repeat split; assumption.
Qed.

(** X8. The state a run returns.  It is the state stored last; every key
    is present; the original message is the caller's; the counter equals the
    number of Writer calls; the continue flag is false and the decision is
    not REVISE. *)
Theorem completed_run_state (fuel : nat) (customer_message : string)
    (final : MessageResponseState) :
  let run := process_customer_message fuel customer_message init_world in
  let evs := events (snd run) in
  fst run = Some (Ok final) ->
  (exists before, evs = (before ++ [Checkpoint final])%list) /\
  all_keys_present final /\
  original_customer_message final = Some customer_message /\
  revision_count final = Some (Z.of_nat (writer_calls evs)) /\
  continue_revision final = Some false /\
  exists d, latest_reviewer_decision final = Some d /\ d <> Decision_value REVISE.
Proof.
  intros run evs Ef.
  destruct (run_counts fuel customer_message) as (_ & _ & _ & _ & _ & _ & _ & Hc).
  destruct (run_states fuel customer_message) as (Hall & Hl & _).
  destruct (Hc final Ef) as (_ & _ & _ & Hrc & Hcont & Hd & _).
  destruct (Hl final Ef) as (before & Eb).
  fold run in Hall. fold evs in Hall.
  fold run in Eb. fold evs in Eb.
  assert (Hk : all_keys_present final /\
               original_customer_message final = Some customer_message).
  { rewrite Eb, checkpoints_app in Hall. apply Forall_app in Hall.
    destruct Hall as (_ & Hall). inversion Hall; assumption. }
  split; [exists before; exact Eb|].
  split; [apply Hk|]. split; [apply Hk|].
  split; [exact Hrc|]. split; [exact Hcont|exact Hd].
Qed.



(** X11. With a cap of one or less no draft is ever reviewed by the model.
    The Writer is called at most once, every request of the run is a Writer
    request, and a run that returns does so with decision APPROVE, counter 1
    and the feedback still empty. *)
Theorem low_cap_run_is_unreviewed (fuel : nat) (customer_message : string) :
  MAX_REVISIONS <= 1 ->
  let run := process_customer_message fuel customer_message init_world in
  let evs := events (snd run) in
  (writer_calls evs <= 1)%nat /\
  requests evs = writer_calls evs /\
  (forall final, fst run = Some (Ok final) ->
     revision_count final = Some 1 /\
     latest_reviewer_decision final = Some (Decision_value APPROVE) /\
     latest_feedback_for_writer final = Some "").
Proof.
  intros Hmax run evs.
  destruct (run_counts fuel customer_message)
    as (_ & _ & Hw & _ & _ & Hq & _ & Hc).
  fold run in Hw, Hq, Hc. fold evs in Hw, Hq, Hc.
  split; [lia|]. split; [exact (Hq Hmax)|].
  intros final Ef.
  destruct (Hc final Ef) as (_ & _ & H1 & Hrc & _ & _ & Hd).
  destruct (Hd Hmax) as (Hd1 & Hf1).
  split; [|split; assumption].
  rewrite Hrc. f_equal. lia.
Qed.

End Workflow.

(** * The properties at concrete inputs *)

Lemma run_is_bounded_witness :
  0 <= DEFAULT_MAX_REVISIONS /\
  let run :=
    process_customer_message DEFAULT_MAX_REVISIONS DEFAULT_MAX_REVISIONS_MESSAGE
      writer_prompt_text reviewer_prompt_text ReviseLLM 11 "Hello!" init_world in
  Z.of_nat (count_node (NodeName_value WRITER) (events (snd run)))
    <= DEFAULT_MAX_REVISIONS + 1 /\
  (forall final, fst run = Some (Ok final) ->
     0 < get (revision_count final) 0 <= DEFAULT_MAX_REVISIONS + 1) /\
  (2 * DEFAULT_MAX_REVISIONS + 5 <= Z.of_nat 11 -> fst run <> None).
Proof.
  split; [unfold DEFAULT_MAX_REVISIONS; lia|].
  apply (run_is_bounded DEFAULT_MAX_REVISIONS DEFAULT_MAX_REVISIONS_MESSAGE
           writer_prompt_text reviewer_prompt_text ReviseLLM 11 "Hello!").
  unfold DEFAULT_MAX_REVISIONS. lia.
Defined.

Lemma reviewer_cap_short_circuit_witness :
  DEFAULT_MAX_REVISIONS
    <= get (revision_count (test_reviewer_state DEFAULT_MAX_REVISIONS)) 0 /\
  exists update entries,
    reviewer_node DEFAULT_MAX_REVISIONS DEFAULT_MAX_REVISIONS_MESSAGE
      reviewer_prompt_text DummyLLM (test_reviewer_state DEFAULT_MAX_REVISIONS)
      init_world = (Ok update, init_world) /\
    latest_reviewer_decision update = Some (Decision_value APPROVE) /\
    continue_revision update = Some false /\
    messages update =
      Some (HumanMessage DEFAULT_MAX_REVISIONS_MESSAGE
              (Some (NodeName_value REVIEWER)) :: entries) /\
    model_calls
      (events (snd (reviewer_node DEFAULT_MAX_REVISIONS DEFAULT_MAX_REVISIONS_MESSAGE
                      reviewer_prompt_text DummyLLM
                      (test_reviewer_state DEFAULT_MAX_REVISIONS) init_world)))
    = model_calls (events init_world).
Proof.
  split; [simpl; lia|].
  apply (proj1 (reviewer_cap_short_circuit DEFAULT_MAX_REVISIONS
                  DEFAULT_MAX_REVISIONS_MESSAGE writer_prompt_text
                  reviewer_prompt_text DummyLLM
                  (test_reviewer_state DEFAULT_MAX_REVISIONS) init_world
                  ltac:(simpl; lia))).
Defined.

Lemma should_continue_routes_witness :
  should_continue empty_channels = NodeName_value PUBLISHER.
Proof.
  apply (proj1 (proj2 (should_continue_routes empty_channels))).
  right. reflexivity.
Defined.

Lemma reviewer_continue_flag_witness :
  exists update w',
    reviewer_node DEFAULT_MAX_REVISIONS DEFAULT_MAX_REVISIONS_MESSAGE
      reviewer_prompt_text DummyLLM (test_reviewer_state 1) init_world
      = (Ok update, w') /\
    (latest_reviewer_decision update = Some (Decision_value APPROVE) ->
     continue_revision update = Some false).
Proof.
  do 2 eexists. split; [cbv; reflexivity|].
  apply (proj1 (proj2
           (reviewer_continue_flag DEFAULT_MAX_REVISIONS
              DEFAULT_MAX_REVISIONS_MESSAGE writer_prompt_text
              reviewer_prompt_text DummyLLM
              (test_reviewer_state 1) _ init_world _ eq_refl))).
Defined.

Lemma revision_count_moves_with_writer_witness :
  exists update w',
    writer_node writer_prompt_text DummyLLM test_writer_state init_world
      = (Ok update, w') /\
    revision_count update = Some 1.
Proof.
  do 2 eexists. split; [cbv; reflexivity|].
  apply (proj1 (revision_count_moves_with_writer DEFAULT_MAX_REVISIONS
                  DEFAULT_MAX_REVISIONS_MESSAGE writer_prompt_text
                  reviewer_prompt_text DummyLLM)
           test_writer_state init_world _ _ eq_refl).
Defined.


Lemma continue_flag_stays_false_witness :
  let stored :=
    checkpoints
      (events (snd (process_customer_message DEFAULT_MAX_REVISIONS
                      DEFAULT_MAX_REVISIONS_MESSAGE writer_prompt_text
                      reviewer_prompt_text ReviseLLM 11 "Hello!" init_world))) in
  exists a b,
    nth_error stored 6 = Some a /\
    nth_error stored 7 = Some b /\
    get (continue_revision a) false = false /\
    get (continue_revision b) false = false.
Proof.
  cbv zeta. do 2 eexists.
  split; [cbv; reflexivity|]. split; [cbv; reflexivity|].
  split; [reflexivity|].
  eapply (continue_flag_stays_false DEFAULT_MAX_REVISIONS
            DEFAULT_MAX_REVISIONS_MESSAGE writer_prompt_text reviewer_prompt_text
            ReviseLLM 11 "Hello!" 6 7).
  - lia.
  - cbv; reflexivity.
  - cbv; reflexivity.
  - reflexivity.
Defined.

Lemma reviewer_decision_default_witness :
  exists update w',
    reviewer_node DEFAULT_MAX_REVISIONS DEFAULT_MAX_REVISIONS_MESSAGE
      reviewer_prompt_text SilentLLM (test_reviewer_state 1) init_world
      = (Ok update, w') /\
    latest_reviewer_decision update = Some (Decision_value REVISE) /\
    continue_revision update = Some true.
Proof.
  exact (reviewer_decision_default DEFAULT_MAX_REVISIONS
           DEFAULT_MAX_REVISIONS_MESSAGE reviewer_prompt_text SilentLLM
           (test_reviewer_state 1) init_world [] "no verdict"
           eq_refl eq_refl eq_refl).
Defined.

Lemma writer_feedback_inclusion_witness :
  messages (revising_state 1 "too long") = Some [] /\
  exists request,
    events (snd (writer_node writer_prompt_text DummyLLM
                   (revising_state 1 "too long") init_world))
      = [Invoke request] /\
    In (Msg (HumanMessage (feedback_message "too long") None)) request.
Proof.
  split; [reflexivity|].
  destruct (writer_feedback_inclusion writer_prompt_text DummyLLM
              (revising_state 1 "too long") init_world [] eq_refl)
    as (request & Hev & Hiff & _).
  exists request. split; [exact Hev|].
  assert (Hrev : request =
    ([RoleDict "system" writer_prompt_text;
      Msg (HumanMessage (original_message_text "Original") None)]
     ++ [Msg (HumanMessage (feedback_message "too long") None)])%list).
  { apply Hiff. split; [simpl; lia|]. split; [reflexivity|]. discriminate. }
  rewrite Hrev. simpl. right. right. left. reflexivity.
Defined.

Lemma feedback_follows_reviews_witness :
  exists update w',
    reviewer_node DEFAULT_MAX_REVISIONS DEFAULT_MAX_REVISIONS_MESSAGE
      reviewer_prompt_text DummyLLM (test_reviewer_state 1) init_world
      = (Ok update, w') /\
    latest_feedback_for_writer update = Some "dummy response content".
Proof.
  do 2 eexists. split; [cbv; reflexivity|].
  destruct (proj1 (proj2 (feedback_follows_reviews DEFAULT_MAX_REVISIONS
                            DEFAULT_MAX_REVISIONS_MESSAGE writer_prompt_text
                            reviewer_prompt_text DummyLLM)
                     (test_reviewer_state 1) init_world _ _ eq_refl)
                  eq_refl)
    as (request & text & Hi & _ & Hf).
  injection Hi as <-. exact Hf.
Defined.

(** The two end-to-end scenarios: a Reviewer that always asks for a
    revision is stopped by the cap after three drafts, and a Reviewer that
    approves at once ends the run after one. *)
Example scenario_always_revise :
  let run :=
    process_customer_message DEFAULT_MAX_REVISIONS DEFAULT_MAX_REVISIONS_MESSAGE
      writer_prompt_text reviewer_prompt_text ReviseLLM 11 "Hello!" init_world in
  exists final entries,
    fst run = Some (Ok final) /\
    revision_count final = Some 3 /\
    latest_reviewer_decision final = Some (Decision_value APPROVE) /\
    continue_revision final = Some false /\
    messages final = Some entries /\
    existsb (fun m => String.eqb (msg_content m) DEFAULT_MAX_REVISIONS_MESSAGE)
            entries = true /\
    count_node (NodeName_value WRITER) (events (snd run)) = 3%nat.
Proof.
  cbv zeta. do 2 eexists.
  split; [vm_compute; reflexivity|]. repeat split; vm_compute; reflexivity.
Qed.

Example scenario_first_approve :
  let run :=
    process_customer_message DEFAULT_MAX_REVISIONS DEFAULT_MAX_REVISIONS_MESSAGE
      writer_prompt_text reviewer_prompt_text DummyLLM 11 "Hello!" init_world in
  exists final,
    fst run = Some (Ok final) /\
    revision_count final = Some 1 /\
    latest_reviewer_decision final = Some (Decision_value APPROVE) /\
    continue_revision final = Some false /\
    count_node (NodeName_value WRITER) (events (snd run)) = 1%nat.
Proof.
  cbv zeta. eexists.
  split; [vm_compute; reflexivity|]. repeat split; vm_compute; reflexivity.
Qed.

(** * Counterexamples to the specification as written *)

(** C6.  The extraction answers "MAYBE", neither APPROVE nor REVISE, one
    revision in and below the cap: the Reviewer does not treat it as REVISE. *)
Lemma unrecognized_decision_counterexample :
  let result :=
    reviewer_node DEFAULT_MAX_REVISIONS DEFAULT_MAX_REVISIONS_MESSAGE
      reviewer_prompt_text MaybeLLM (test_reviewer_state 1) init_world in
  (exists update,
     fst result = Ok update /\
     latest_reviewer_decision update = Some "MAYBE" /\
     continue_revision update = Some false) /\
  ~ (exists update,
       fst result = Ok update /\
       latest_reviewer_decision update = Some (Decision_value REVISE) /\
       continue_revision update = Some true).
Proof.
  cbv zeta. split.
  - eexists. split; [vm_compute; reflexivity|]. split; reflexivity.
  - intros (update & E & Hd & _).
    vm_compute in E. injection E as <-. discriminate Hd.
Qed.

(** C7.  A run on the empty message is not rejected: it ends normally after
    the Writer, the Reviewer and the Publisher have all been called. *)
Lemma empty_message_counterexample :
  let run :=
    process_customer_message DEFAULT_MAX_REVISIONS DEFAULT_MAX_REVISIONS_MESSAGE
      writer_prompt_text reviewer_prompt_text DummyLLM 10 "" init_world in
  ~ ((exists e, fst run = Some (Raise e)) /\
     count_node (NodeName_value WRITER) (events (snd run)) = O /\
     count_node (NodeName_value REVIEWER) (events (snd run)) = O /\
     count_node (NodeName_value PUBLISHER) (events (snd run)) = O).
Proof.
  cbv zeta. intros (_ & Hw & _). vm_compute in Hw. discriminate Hw.
Qed.

(** C8.  One revision in, the decision is REVISE, but the feedback text is
    empty: the request ends with the original message, no feedback in it. *)
Lemma empty_feedback_counterexample :
  let state := revising_state 1 "" in
  let base :=
    [RoleDict "system" writer_prompt_text;
     Msg (HumanMessage (original_message_text "Original") None)] in
  ~ (events (snd (writer_node writer_prompt_text DummyLLM state init_world))
       = [Invoke (base ++ [Msg (HumanMessage (feedback_message "") None)])]
     <->
     0 < get (revision_count state) 0 /\
     latest_reviewer_decision state = Some (Decision_value REVISE)).
Proof.
  cbv zeta. intros [_ H].
  assert (Hcond : 0 < get (revision_count (revising_state 1 "")) 0 /\
                  latest_reviewer_decision (revising_state 1 "")
                  = Some (Decision_value REVISE))
    by (split; [simpl; lia|reflexivity]).
  specialize (H Hcond). vm_compute in H. discriminate H.
Qed.

(** C9.  At the cap the Reviewer asks the model nothing, so it produces no
    critique, and the feedback stays what it was. *)
Lemma capped_review_counterexample :
  let state := revising_state DEFAULT_MAX_REVISIONS "old critique" in
  let result :=
    reviewer_node DEFAULT_MAX_REVISIONS DEFAULT_MAX_REVISIONS_MESSAGE
      reviewer_prompt_text DummyLLM state init_world in
  (exists update,
     fst result = Ok update /\
     latest_feedback_for_writer update = Some "old critique" /\
     events (snd result) = []) /\
  ~ (exists update request text,
       fst result = Ok update /\
       In (Invoke request) (events (snd result)) /\
       invoke DummyLLM (events init_world) request = Ok text /\
       latest_feedback_for_writer update = Some text).
Proof.
  cbv zeta. split.
  - eexists. split; [vm_compute; reflexivity|]. split; reflexivity.
  - intros (update & request & text & _ & Hin & _).
    vm_compute in Hin. exact Hin.
Qed.

(** ** The further properties at concrete inputs *)




Lemma reviewer_node_review_witness :
  exists update w' new_entries,
    reviewer_node DEFAULT_MAX_REVISIONS DEFAULT_MAX_REVISIONS_MESSAGE
      reviewer_prompt_text DummyLLM (test_reviewer_state 1) init_world
      = (Ok update, w') /\
    List.length (events w') = 2%nat /\
    revision_count update = Some 1 /\
    messages update = Some new_entries /\
    List.length new_entries = 3%nat.
Proof.
  assert (Hlt : get (revision_count (test_reviewer_state 1)) 0 < DEFAULT_MAX_REVISIONS)
    by (unfold DEFAULT_MAX_REVISIONS; simpl; lia).
  destruct (reviewer_node_review DEFAULT_MAX_REVISIONS DEFAULT_MAX_REVISIONS_MESSAGE
              reviewer_prompt_text DummyLLM (test_reviewer_state 1)
              _ init_world _ Hlt eq_refl)
    as (entries & text & answer & new_entries & _ & _ & _ & _ & _ & _ & Hrc
        & Hlog & Hlen & _).
  do 2 eexists. exists new_entries. split; [cbv; reflexivity|].
  split; [reflexivity|].
  split; [exact Hrc|]. split; assumption.
Defined.

Lemma completed_run_state_witness :
  let run :=
    process_customer_message DEFAULT_MAX_REVISIONS DEFAULT_MAX_REVISIONS_MESSAGE
      writer_prompt_text reviewer_prompt_text DummyLLM 11 "Hello!" init_world in
  exists final,
    fst run = Some (Ok final) /\
    all_keys_present final /\
    original_customer_message final = Some "Hello!" /\
    revision_count final = Some (Z.of_nat (writer_calls (events (snd run)))) /\
    continue_revision final = Some false.
Proof.
  cbv zeta. eexists. split; [vm_compute; reflexivity|].
  edestruct (completed_run_state DEFAULT_MAX_REVISIONS DEFAULT_MAX_REVISIONS_MESSAGE
               writer_prompt_text reviewer_prompt_text DummyLLM 11 "Hello!")
    as (_ & Hk & Ho & Hrc & Hc & _); [vm_compute; reflexivity|].
  split; [exact Hk|]. split; [exact Ho|]. split; [exact Hrc|exact Hc].
Defined.


Lemma low_cap_run_is_unreviewed_witness :
  1 <= 1 /\
  let run :=
    process_customer_message 1 DEFAULT_MAX_REVISIONS_MESSAGE
      writer_prompt_text reviewer_prompt_text ReviseLLM 11 "Hello!" init_world in
  let evs := events (snd run) in
  (writer_calls evs <= 1)%nat /\
  requests evs = writer_calls evs /\
  (forall final, fst run = Some (Ok final) ->
     revision_count final = Some 1 /\
     latest_reviewer_decision final = Some (Decision_value APPROVE) /\
     latest_feedback_for_writer final = Some "").
Proof.
  split; [lia|].
  apply (low_cap_run_is_unreviewed 1 DEFAULT_MAX_REVISIONS_MESSAGE
           writer_prompt_text reviewer_prompt_text ReviseLLM 11 "Hello!").
  lia.
Defined.
